(** * CMF_2025_Step_2: market-data backfill and performance statistics

    A shallow embedding of [src/data_downloader.py] (module [DataDownloader])
    and [src/backtesters.py] (modules [Backtesters], in exact arithmetic,
    and [Backtesters64], in binary64 arithmetic), and the properties the
    specification states about them.

    Conventions.
    - A pandas [DataFrame] of candles is the list of its rows in index order;
      [pd.DataFrame()] and every frame without rows are the empty list, which
      is what [df.empty] tests.
    - Instants of the index are integers counting microseconds since the
      epoch (the resolution of [datetime]); the source's millisecond stamps
      are integers counting milliseconds.  A stamp the source computes
      through a float, [int(ts.timestamp() * 1000)], is computed here in
      binary64 arithmetic (module [Binary64]), rounding included.
    - The HTTP service is a function from the number of the request and the
      request's parameters to a response, so that a service may answer two
      equal requests differently. *)

From Stdlib Require Import String ZArith QArith Bool List Lia.
From Stdlib Require Import Sorting.Sorted Sorting.Permutation.
From Stdlib Require Import Reals Lra.
From Stdlib Require Import SpecFloat.
Import ListNotations.

(** ** Python outcomes *)

(** The exceptions the claims speak of.  The source raises [ValueError] (its
    own argument checks, and pandas when reindexing a duplicated index) and
    [KeyError]; [FetchError] and [NonConvergenceError] are the names the
    specification gives to errors: no path of the source constructs them. *)
Inductive exn : Set :=
| ValueError
| KeyError
| ZeroDivisionError
| FetchError
| NonConvergenceError.

Inductive outcome (A : Type) : Type :=
| Returned (a : A)
| Raised (e : exn).
Arguments Returned {A} a.
Arguments Raised {A} e.

Definition bind {A B : Type} (m : outcome A) (k : A -> outcome B) : outcome B :=
  match m with
  | Returned a => k a
  | Raised e => Raised e
  end.

Notation "x <- m ;; k" := (bind m (fun x => k))
  (at level 61, m at next level, right associativity).

(** ** Binary64 numbers *)

(** Python's [float] and numpy's [float64] are the binary64 numbers of IEEE
    754, which the Standard Library specifies in [SpecFloat]: each operation
    returns the exact result rounded to the nearest number with a mantissa
    of 53 bits, ties to even. *)
Module Binary64.

Local Open Scope Z_scope.

Definition binary64 : Set := spec_float.

Definition prec : Z := 53.
Definition emax : Z := 1024.

Definition add : binary64 -> binary64 -> binary64 := SFadd prec emax.
Definition sub : binary64 -> binary64 -> binary64 := SFsub prec emax.
Definition mul : binary64 -> binary64 -> binary64 := SFmul prec emax.
Definition div : binary64 -> binary64 -> binary64 := SFdiv prec emax.
Definition sqrt : binary64 -> binary64 := SFsqrt prec emax.
Definition abs : binary64 -> binary64 := SFabs.
Definition opp : binary64 -> binary64 := SFopp.

(** [a < b]; false when either side is NaN. *)
Definition ltb : binary64 -> binary64 -> bool := SFltb.

(** [a <= b]; false when either side is NaN. *)
Definition leb : binary64 -> binary64 -> bool := SFleb.

Definition nan : binary64 := S754_nan.
Definition zero : binary64 := S754_zero false.

Definition is_nan (x : binary64) : bool :=
  match x with
  | S754_nan => true
  | S754_zero _ | S754_infinity _ | S754_finite _ _ _ => false
  end.

Definition is_zero (x : binary64) : bool :=
  match x with
  | S754_zero _ => true
  | S754_nan | S754_infinity _ | S754_finite _ _ _ => false
  end.

Definition is_finite (x : binary64) : bool :=
  match x with
  | S754_zero _ | S754_finite _ _ _ => true
  | S754_nan | S754_infinity _ => false
  end.

(** The float of an integer, [float(z)]: the nearest binary64 number, the
    integer itself while it has no more than 53 bits. *)
Definition of_Z (z : Z) : binary64 := binary_normalize prec emax z 0 false.

(** An integer as mantissa, with all its bits. *)
Definition integer (z : Z) : binary64 :=
  match z with
  | Z0 => S754_zero false
  | Zpos m => S754_finite false m 0
  | Zneg m => S754_finite true m 0
  end.

(** [a / b] of two Python integers, [b] other than 0: the quotient of the
    integers, rounded once. *)
Definition true_divide (a b : Z) : binary64 := div (integer a) (integer b).

(** The number a decimal literal [n / d] denotes, for integers of no more
    than 53 bits: [0.1] is [literal 1 10]. *)
Definition literal (n d : Z) : binary64 := div (of_Z n) (of_Z d).

(** [int(x)] of a finite float: its integer part.  ([int] raises on an
    infinity and on NaN, which no stamp of this development is; they are
    given 0.) *)
Definition trunc (x : binary64) : Z :=
  match x with
  | S754_finite s m e =>
      let n := match e with
               | Zneg k => Z.shiftr (Zpos m) (Zpos k)
               | Z0 | Zpos _ => Z.shiftl (Zpos m) e
               end in
      if s then - n else n
  | S754_zero _ | S754_infinity _ | S754_nan => 0
  end.

End Binary64.

Module DataDownloader.

Local Open Scope Z_scope.

(** ** Data model *)

(** One kline of the Bybit payload,
    [['timestamp', 'open', 'high', 'low', 'close', 'volume', 'turnover']],
    after [pd.to_numeric] and [astype('int64')]. *)
Record kline : Set := {
  k_timestamp : Z;
  k_open : Q;
  k_high : Q;
  k_low : Q;
  k_close : Q;
  k_volume : Q;
  k_turnover : Q
}.

(** One row of the frame a page fetcher returns: the index [time] and the
    six columns [{col_name}_open] ... [{col_name}_turnover]. *)
Record candle : Set := {
  time : Z;
  col_open : Q;
  col_high : Q;
  col_low : Q;
  col_close : Q;
  col_volume : Q;
  col_turnover : Q
}.

Definition DataFrame : Set := list candle.

Record request : Set := {
  category : string;
  symbol : string;
  interval : string;
  limit : Z;
  start : option Z;
  end_ : option Z
}.

(** What [requests.get], [raise_for_status] and [response.json()] can do. *)
Inductive response : Set :=
| ConnectionFailed
| HTTPStatusError (status : Z)
| MalformedPayload
| Payload (retCode : Z) (retMsg : string) (klines : list kline).

Definition service : Set := nat -> request -> response.

(** ** pandas primitives *)

(** [pd.to_datetime(ms, unit='ms')]. *)
Definition to_datetime_ms (ms : Z) : Z := 1000 * ms.

(** [int(ts.timestamp() * 1000)] of a pandas [Timestamp] (naive, read as
    UTC).  [Timestamp.timestamp()] is [round(value / denom, 6)], the number
    of seconds as a float: the quotient of two integers, which
    [round(., 6)] leaves as it is, the instant being a whole number of
    microseconds.  The product by 1000 is rounded again, and [int] drops
    its fraction: the stamp of 1.001 s is 1000, that of 1.002 s is 1002. *)
Definition timestamp_ms_utc (t : Z) : Z :=
  Binary64.trunc
    (Binary64.mul (Binary64.true_divide t 1000000) (Binary64.of_Z 1000)).

Arguments timestamp_ms_utc : simpl never.

Fixpoint insert_row (r : candle) (df : DataFrame) : DataFrame :=
  match df with
  | [] => [r]
  | x :: rest =>
      if time r <=? time x then r :: x :: rest else x :: insert_row r rest
  end.

(** [df.sort_index()]: ascending by index.  Rows of equal index keep their
    order here; pandas' default sort does not promise which comes first. *)
Definition sort_index (df : DataFrame) : DataFrame :=
  fold_right insert_row [] df.

(** [df[~df.index.duplicated(keep='first')]]: a row is dropped when its index
    value was seen in an earlier row. *)
Fixpoint drop_duplicated (seen : list Z) (df : DataFrame) : DataFrame :=
  match df with
  | [] => []
  | r :: rest =>
      if existsb (Z.eqb (time r)) seen then drop_duplicated seen rest
      else r :: drop_duplicated (time r :: seen) rest
  end.

(** ** Page fetchers *)

(** Lines 108-114: the six output columns of one row. *)
Definition token_row (k : kline) : candle :=
  {| time := to_datetime_ms (k_timestamp k);
     col_open := k_open k;
     col_high := k_open k;
     col_low := k_open k;
     col_close := k_close k;
     col_volume := k_volume k;
     col_turnover := k_turnover k |}.

(** The stamps [pd.to_datetime(., unit='ms')] can hold in nanoseconds on 64
    bits; on any other it raises [OutOfBoundsDatetime].  (The one pattern
    pandas reads as a missing time, -2^63, is counted with the stamps that
    raise.) *)
Definition in_bounds (ms : Z) : bool :=
  (-9223372036854 <=? ms) && (ms <=? 9223372036854).

(** The body both kline fetchers share, from the response on.  Whatever
    raises inside the [try] is answered with [pd.DataFrame()]: a failure of
    the request, and a stamp out of bounds at line 101 (369). *)
Definition kline_frame (r : response) : DataFrame :=
  match r with
  | Payload retCode _ klines =>
      if retCode =? 0 then
        match klines with
        | [] => []
        | _ :: _ =>
            if forallb (fun k => in_bounds (k_timestamp k)) klines then
              sort_index (map token_row klines)
            else []
        end
      else []
  | ConnectionFailed | HTTPStatusError _ | MalformedPayload => []
  end.

Definition get_spot_prices_bybit (http_get : request -> response)
    (symbol interval : string) (limit : Z) (start_time end_time : option Z)
    : DataFrame :=
  let params := {| category := "spot"%string; symbol := symbol; interval := interval;
                   limit := limit; start := start_time; end_ := end_time |} in
  kline_frame (http_get params).

Definition get_future_price_bybit (http_get : request -> response)
    (symbol interval : string) (limit : Z) (start_time end_time : option Z)
    : DataFrame :=
  let params := {| category := "linear"%string; symbol := symbol; interval := interval;
                   limit := limit; start := start_time; end_ := end_time |} in
  kline_frame (http_get params).

(** ** Merge and dedup (lines 198-207 and 462-470) *)

Definition in_range (start_time end_time : Z) (r : candle) : bool :=
  (start_time <=? time r) && (time r <=? end_time).

Definition merge (start_time end_time : Z) (all_dfs : list DataFrame)
    : DataFrame :=
  match all_dfs with
  | [] => []
  | _ :: _ =>
      let full_df := sort_index (concat all_dfs) in
      let full_df := drop_duplicated [] full_df in
      filter (in_range start_time end_time) full_df
  end.

(** ** The backward walk (lines 154-195 and 421-459) *)

(** A [start_time] or [end_time] argument as Python passes it.  The
    datetimes of the model are naive ones for which [timestamp()] is
    defined: a timezone-aware datetime, which the comparisons with the
    index refuse with [TypeError], and a datetime for which [timestamp()]
    raises are no arguments of the model. *)
Inductive time_arg : Set :=
| ArgStr (s : string)
| ArgDatetime (t : Z)
| ArgNone
| ArgOther.

(** The cap of lines 193 and 457. *)
Definition max_pages : Z := 10000.

Section Walk.

(** [fetch i current_end] is the page the [i]-th request returns when it asks
    for the window ending at [current_end]. *)
Variable fetch : nat -> Z -> DataFrame.
Variables start_time start_ms : Z.

(** The [while True] loop.  [i] counts the requests issued so far; the result
    is [all_dfs] and the number of requests when the loop is left, [None] when
    [fuel] passes did not leave it. *)
Fixpoint walk (fuel : nat) (i : nat) (all_dfs : list DataFrame)
    (current_end : Z) : option (list DataFrame * nat) :=
  match fuel with
  | O => None
  | S fuel =>
      match fetch i current_end with
      | [] => Some (all_dfs, S i)
      | (_ :: _) as df =>
          match filter (fun r => start_time <=? time r) df with
          | [] => Some (all_dfs, S i)
          | (first :: _) as df =>
              let all_dfs := all_dfs ++ [df] in
              let earliest_timestamp_ms := timestamp_ms_utc (time first) in
              if earliest_timestamp_ms <=? start_ms then Some (all_dfs, S i)
              else
                let current_end := earliest_timestamp_ms - 1 in
                if max_pages <? Z.of_nat (length all_dfs) then
                  Some (all_dfs, S i)
                else walk fuel (S i) all_dfs current_end
          end
      end
  end.

End Walk.

(** The request of one pass: lines 160-167 and 427-434. *)
Definition fetch_page
    (page : (request -> response) -> string -> string -> Z ->
            option Z -> option Z -> DataFrame)
    (server : service) (symbol interval : string) (start_ms : Z)
    (i : nat) (current_end : Z) : DataFrame :=
  page (server i) symbol interval 1000 (Some start_ms) (Some current_end).

(** Passes that always suffice: the loop is left at the latest in the pass
    that makes [len(all_dfs)] exceed [max_pages]. *)
Definition enough_fuel : nat := S (Z.to_nat max_pages).

Section Environment.

(** [datetime.fromisoformat(s.replace(" ", "T"))]; [None] when it raises
    [ValueError]. *)
Variable fromisoformat : string -> option Z.
(** [int(dt.timestamp() * 1000)] of a naive [datetime], which Python reads in
    the machine's time zone. *)
Variable timestamp_ms : Z -> Z.
(** [datetime.now()]. *)
Variable now : Z.

Definition parse_arg (a : time_arg) : outcome time_arg :=
  match a with
  | ArgStr s =>
      match fromisoformat s with
      | Some t => Returned (ArgDatetime t)
      | None => Raised ValueError
      end
  | ArgDatetime _ | ArgNone | ArgOther => Returned a
  end.

(** Lines 138-149 (and 406-416): the period as two datetimes. *)
Definition period (start_time end_time : time_arg) : outcome (Z * Z) :=
  start_time <- parse_arg start_time ;;
  end_time <- parse_arg end_time ;;
  match start_time with
  | ArgDatetime s =>
      match end_time with
      | ArgNone => Returned (s, now)
      | ArgDatetime e => Returned (s, e)
      | ArgStr _ | ArgOther => Raised ValueError
      end
  | ArgStr _ | ArgNone | ArgOther => Raised ValueError
  end.

(** The loop of one category, from the fetcher it calls. *)
Definition backfill
    (page : (request -> response) -> string -> string -> Z ->
            option Z -> option Z -> DataFrame)
    (server : service) (symbol interval : string)
    (start_time end_time : time_arg) : option (outcome DataFrame) :=
  match period start_time end_time with
  | Raised e => Some (Raised e)
  | Returned (start_time, end_time) =>
      let start_ms := timestamp_ms start_time in
      let end_ms := timestamp_ms end_time in
      match walk (fetch_page page server symbol interval start_ms)
                 start_time start_ms enough_fuel 0 [] end_ms with
      | None => None
      | Some (all_dfs, _) => Some (Returned (merge start_time end_time all_dfs))
      end
  end.

Definition get_spot_data_bybit_full_period :=
  backfill get_spot_prices_bybit.

Definition get_future_data_bybit_full_period :=
  backfill get_future_price_bybit.

End Environment.

(** ** Funding rates (lines 210-315) *)

(** One entry of the funding history, after [int(...)] and [pd.to_numeric]. *)
Record funding_rate : Set := {
  f_symbol : string;
  fundingRate : Q;
  fundingRateTimestamp : Z
}.

Record funding_request : Set := {
  q_symbol : string;
  q_limit : Z;
  startTime : option Z;
  endTime : option Z
}.

Inductive funding_response : Set :=
| FundingFailed
| FundingPayload (retCode : Z) (rates : list funding_rate).

Definition funding_service : Set := nat -> funding_request -> funding_response.

(** Python's truth value of an optional integer: [None] and [0] are false. *)
Definition truthy (x : option Z) : option Z :=
  match x with
  | Some v => if v =? 0 then None else Some v
  | None => None
  end.

Definition get_funding_rates (http_get : funding_request -> funding_response)
    (symbol : string) (start_time end_time : option Z) (limit : Z)
    : option (list funding_rate) :=
  let params := {| q_symbol := symbol; q_limit := limit;
                   startTime := truthy start_time;
                   endTime := truthy end_time |} in
  match http_get params with
  | FundingPayload retCode rates => if retCode =? 0 then Some rates else None
  | FundingFailed => None
  end.

(** [min(int(r['fundingRateTimestamp']) for r in rates)] of a non-empty list. *)
Definition oldest (r0 : funding_rate) (rates : list funding_rate) : Z :=
  fold_left (fun m r => Z.min m (fundingRateTimestamp r)) rates
            (fundingRateTimestamp r0).

(** The loop of lines 252-267.  It has no cap: [None] when [fuel] passes did
    not leave it. *)
Fixpoint funding_walk (server : funding_service) (symbol : string)
    (start_time : Z) (fuel : nat) (i : nat) (all_rates : list funding_rate)
    (current_end : Z) : option (list funding_rate * nat) :=
  match fuel with
  | O => None
  | S fuel =>
      match get_funding_rates (server i) symbol None (Some current_end) 200 with
      | None | Some [] => Some (all_rates, S i)
      | Some ((r0 :: rest) as rates) =>
          let filtered :=
            filter (fun r => start_time <=? fundingRateTimestamp r) rates in
          let all_rates := all_rates ++ filtered in
          let oldest_time := oldest r0 rest in
          if oldest_time <=? start_time then Some (all_rates, S i)
          else funding_walk server symbol start_time fuel (S i) all_rates
                            (oldest_time - 1)
      end
  end.

(** A row of the funding frame: ['symbol', 'fundingRate',
    'fundingRateTimestamp', 'fundingTime']. *)
Record funding_row : Set := {
  row_rate : funding_rate;
  fundingTime : Z
}.

Fixpoint insert_funding (r : funding_row) (df : list funding_row)
    : list funding_row :=
  match df with
  | [] => [r]
  | x :: rest =>
      if fundingTime r <=? fundingTime x then r :: x :: rest
      else x :: insert_funding r rest
  end.

(** [df.sort_values('fundingTime')]. *)
Definition sort_values (df : list funding_row) : list funding_row :=
  fold_right insert_funding [] df.

(** [df.drop_duplicates('fundingTime')], keeping the first. *)
Fixpoint drop_duplicates_time (seen : list Z) (df : list funding_row)
    : list funding_row :=
  match df with
  | [] => []
  | r :: rest =>
      if existsb (Z.eqb (fundingTime r)) seen then drop_duplicates_time seen rest
      else r :: drop_duplicates_time (fundingTime r :: seen) rest
  end.

(** Lines 274-281. *)
Definition funding_frame (start_date end_date : Z)
    (all_rates : list funding_rate) : list funding_row :=
  let df := map (fun r => {| row_rate := r;
                             fundingTime := to_datetime_ms (fundingRateTimestamp r) |})
                all_rates in
  let df := sort_values (drop_duplicates_time [] df) in
  filter (fun r => (start_date <=? fundingTime r) && (fundingTime r <=? end_date)) df.

(** One hour, in the unit of the index. *)
Definition hour : Z := 3600000000.

(** [Timestamp.floor('H')] and [Timestamp.ceil('H')]. *)
Definition floor_H (t : Z) : Z := hour * (t / hour).
Definition ceil_H (t : Z) : Z := hour * ((t + hour - 1) / hour).

(** [pd.date_range(start=s, end=e, freq='H')]. *)
Definition date_range (s e : Z) : list Z :=
  if s <=? e then
    map (fun k => s + hour * Z.of_nat k) (seq 0 (Z.to_nat ((e - s) / hour + 1)))
  else [].

(** A pandas [Series] of rates indexed by time. *)
Definition Series : Set := list (Z * Q).

(** [Series.drop_duplicates()]: by value, keeping the first. *)
Fixpoint drop_duplicates (seen : list Q) (s : Series) : Series :=
  match s with
  | [] => []
  | (t, v) :: rest =>
      if existsb (Qeq_bool v) seen then drop_duplicates seen rest
      else (t, v) :: drop_duplicates (v :: seen) rest
  end.

Fixpoint unique (seen : list Z) (index : list Z) : bool :=
  match index with
  | [] => true
  | t :: rest => negb (existsb (Z.eqb t) seen) && unique (t :: seen) rest
  end.

Fixpoint lookup (t : Z) (s : Series) : option Q :=
  match s with
  | [] => None
  | (t', v) :: rest => if t' =? t then Some v else lookup t rest
  end.

(** [Series.reindex(index)]: pandas refuses a duplicated index; a label the
    series lacks gets NaN, here [None]. *)
Definition reindex (s : Series) (index : list Z)
    : outcome (list (Z * option Q)) :=
  if unique [] (map fst s) then Returned (map (fun t => (t, lookup t s)) index)
  else Raised ValueError.

(** [Series.fillna(0.0)]. *)
Definition fillna (s : list (Z * option Q)) : Series :=
  map (fun r => (fst r, match snd r with Some v => v | None => 0%Q end)) s.

(** Lines 290-315: the hourly grid of one funding frame. *)
Definition hourly_grid (start_dt end_dt : Z) (df_fund : list funding_row)
    : outcome Series :=
  let full_hourly_range := date_range (floor_H start_dt) (ceil_H end_dt) in
  let fund_series :=
    drop_duplicates []
      (map (fun r => (fundingTime r, fundingRate (row_rate r))) df_fund) in
  fund_series <- reindex fund_series full_hourly_range ;;
  Returned (fillna fund_series).

(** [results[symbol]] of a dict kept as the list of its assignments, latest
    first. *)
Fixpoint results_get (results : list (string * list funding_row))
    (symbol : string) : outcome (list funding_row) :=
  match results with
  | [] => Raised KeyError
  | (k, df) :: rest =>
      if String.eqb k symbol then Returned df else results_get rest symbol
  end.

(** The [for symbol in symbols] loop of lines 247-284, with the stamps of
    lines 242-243, [int(pd.to_datetime(start_date).timestamp() * 1000)]. *)
Fixpoint funding_results (server : funding_service) (start_date end_date : Z)
    (fuel : nat) (i : nat) (symbols : list string)
    (results : list (string * list funding_row))
    : option (list (string * list funding_row)) :=
  match symbols with
  | [] => Some results
  | symbol :: symbols =>
      let start_time := timestamp_ms_utc start_date in
      let end_time := timestamp_ms_utc end_date in
      match funding_walk server symbol start_time fuel i [] end_time with
      | None => None
      | Some ([], i) =>
          funding_results server start_date end_date fuel i symbols results
      | Some ((_ :: _) as all_rates, i) =>
          let df := funding_frame start_date end_date all_rates in
          funding_results server start_date end_date fuel i symbols
                          ((symbol, df) :: results)
      end
  end.

(** [get_funding_bybit]; [fuel] bounds the passes of each symbol's loop. *)
Definition get_funding_bybit (server : funding_service) (fuel : nat)
    (symbols : list string) (start_date end_date : Z)
    : option (outcome Series) :=
  match funding_results server start_date end_date fuel 0 symbols [] with
  | None => None
  | Some [] => Some (Returned [])
  | Some ((_ :: _) as results) =>
      Some (df_fund <- results_get results (hd EmptyString symbols) ;;
            hourly_grid start_date end_date df_fund)
  end.

(** ** The notions the claims are stated with *)

Definition time_le (a b : candle) : Prop := time a <= time b.
Definition time_lt (a b : candle) : Prop := time a < time b.

(** The invariant of a SeriesTable for the window [[start_time, end_time]]:
    strictly increasing index, every row inside the window. *)
Definition SeriesTable (start_time end_time : Z) (df : DataFrame) : Prop :=
  StronglySorted time_lt df /\
  Forall (fun r => start_time <= time r <= end_time) df.


(** A row whose high and low columns repeat its open column. *)
Definition open_only (r : candle) : Prop :=
  col_high r = col_open r /\ col_low r = col_open r.

(** A response the fetchers answer with [pd.DataFrame()] after printing the
    error: an exception of the request, or a return code other than 0. *)
Definition failed (r : response) : bool :=
  match r with
  | Payload retCode _ _ => negb (retCode =? 0)
  | ConnectionFailed | HTTPStatusError _ | MalformedPayload => true
  end.


(** No page of the service reaches the start of the period: each has a row
    at or after the start, and the stamp the loop computes for the earliest
    of them is later than [start_ms]. *)
Definition never_reaches (server : service) (start_time start_ms : Z) : Prop :=
  forall i q, exists first rest,
    filter (fun r => start_time <=? time r) (kline_frame (server i q))
      = first :: rest /\
    start_ms < timestamp_ms_utc (time first).



Definition sample_rate (ms : Z) : funding_rate :=
  {| f_symbol := "SOLUSDT"; fundingRate := 1 # 10000; fundingRateTimestamp := ms |}.

(** A funding service with one payment at 01:00 on its first page and no
    older page. *)
Definition one_payment_server : funding_service :=
  fun i _ =>
    match i with
    | O => FundingPayload 0 [sample_rate 3600000]
    | S _ => FundingPayload 0 []
    end.

(** A funding service whose every page holds one payment at 01:00. *)
Definition same_page_server : funding_service :=
  fun _ _ => FundingPayload 0 [sample_rate 3600000].

(** ** Sample environments *)

(** A machine whose local time is UTC: [datetime.timestamp()] adds the
    whole seconds and [microsecond / 1e6] as floats. *)
Definition utc_timestamp_ms (t : Z) : Z :=
  Binary64.trunc
    (Binary64.mul
       (Binary64.add (Binary64.of_Z (t / 1000000))
                     (Binary64.div (Binary64.of_Z (t mod 1000000))
                                   (Binary64.of_Z 1000000)))
       (Binary64.of_Z 1000)).

Definition no_iso (s : string) : option Z := None.

Definition sample_kline (ms : Z) : kline :=
  {| k_timestamp := ms; k_open := 10; k_high := 12; k_low := 9;
     k_close := 11; k_volume := 5; k_turnover := 55 |}.

(** A service whose first answer is one candle at 200 ms and whose every
    later request fails in transport. *)
Definition failing_server : service :=
  fun i _ =>
    match i with
    | O => Payload 0 "OK" [sample_kline 200]
    | S _ => ConnectionFailed
    end.

(** A service that always answers one candle, at the last whole second that
    is not after the requested end (never before 1 s, never after 20 s):
    with a start at 0 no page reaches the start. *)
Definition late_server : service :=
  fun _ q =>
    Payload 0 "OK"
      [sample_kline
         (1000 * Z.max 1 (Z.min 20 ((match end_ q with
                                     | Some e => e
                                     | None => 1000
                                     end) / 1000)))].

Definition two_rows : DataFrame :=
  [token_row (sample_kline 100); token_row (sample_kline 200)].

(** The forms of [start_time] the backfills accept: a datetime, or a string
    [fromisoformat] reads. *)
Definition valid_start (fromisoformat : string -> option Z) (a : time_arg)
    : bool :=
  match a with
  | ArgDatetime _ => true
  | ArgStr s => match fromisoformat s with Some _ => true | None => false end
  | ArgNone | ArgOther => false
  end.

(** The forms of [end_time] they accept: those of [start_time], and [None]. *)
Definition valid_end (fromisoformat : string -> option Z) (a : time_arg)
    : bool :=
  match a with
  | ArgNone => true
  | ArgStr _ | ArgDatetime _ | ArgOther => valid_start fromisoformat a
  end.

(** A funding response that [get_funding_rates] or the loop reads as "no
    rates": a failure, a return code other than 0, or an empty list. *)
Definition no_rates (r : funding_response) : bool :=
  match r with
  | FundingFailed => true
  | FundingPayload retCode rates =>
      negb (retCode =? 0) || match rates with [] => true | _ :: _ => false end
  end.


(** A row of a page is the row of a kline the service sent with return
    code 0. *)
Definition sent_by (server : service) (r : candle) : Prop :=
  exists i q retMsg klines k,
    server i q = Payload 0 retMsg klines /\ In k klines /\ r = token_row k.


(** A funding rate the service sent with return code 0. *)
Definition rate_sent_by (server : funding_service) (r : funding_rate) : Prop :=
  exists i q rates, server i q = FundingPayload 0 rates /\ In r rates.

End DataDownloader.

Module Backtesters.

Local Open Scope R_scope.

(** ** Floats

    A numpy or Python float with its three special values.  Arithmetic on
    the finite values is the exact arithmetic of the reals: rounding and
    overflow are left out, and a zero has no sign (a zero divisor counts as
    positive, which the denominators below are).  What rounding decides, as
    whether a deviation comes out as zero, is stated of the binary64
    statistics of module [Backtesters64]. *)
Inductive float64 : Type :=
| Fin (x : R)
| PInf
| NInf
| NaN.

Definition fneg (a : float64) : float64 :=
  match a with
  | Fin x => Fin (- x)
  | PInf => NInf
  | NInf => PInf
  | NaN => NaN
  end.

Definition fabs (a : float64) : float64 :=
  match a with
  | Fin x => Fin (Rabs x)
  | PInf | NInf => PInf
  | NaN => NaN
  end.

Definition fadd (a b : float64) : float64 :=
  match a, b with
  | NaN, _ | _, NaN => NaN
  | Fin x, Fin y => Fin (x + y)
  | PInf, NInf | NInf, PInf => NaN
  | PInf, _ | _, PInf => PInf
  | NInf, _ | _, NInf => NInf
  end.

Definition fsub (a b : float64) : float64 := fadd a (fneg b).

(** The infinity a finite factor or divisor of sign [x] turns [+inf] into. *)
Definition inf_times (x : R) : float64 :=
  if Rlt_dec 0 x then PInf else if Rlt_dec x 0 then NInf else NaN.

Definition fmul (a b : float64) : float64 :=
  match a, b with
  | NaN, _ | _, NaN => NaN
  | Fin x, Fin y => Fin (x * y)
  | Fin x, PInf | PInf, Fin x => inf_times x
  | Fin x, NInf | NInf, Fin x => fneg (inf_times x)
  | PInf, PInf | NInf, NInf => PInf
  | PInf, NInf | NInf, PInf => NInf
  end.

(** numpy's division: a zero divisor gives an infinity or NaN, no exception. *)
Definition fdiv (a b : float64) : float64 :=
  match a, b with
  | NaN, _ | _, NaN => NaN
  | Fin x, Fin y => if Req_dec_T y 0 then inf_times x else Fin (x / y)
  | Fin _, PInf | Fin _, NInf => Fin 0
  | PInf, Fin y => if Rlt_dec y 0 then NInf else PInf
  | NInf, Fin y => if Rlt_dec y 0 then PInf else NInf
  | PInf, PInf | PInf, NInf | NInf, PInf | NInf, NInf => NaN
  end.

(** [a > b]; false when either side is NaN. *)
Definition fgt (a b : float64) : bool :=
  match a, b with
  | NaN, _ | _, NaN => false
  | Fin x, Fin y => if Rlt_dec y x then true else false
  | PInf, PInf | NInf, _ | _, PInf => false
  | PInf, _ | _, NInf => true
  end.

(** [np.sqrt]. *)
Definition np_sqrt (a : float64) : float64 :=
  match a with
  | Fin x => if Rle_dec 0 x then Fin (sqrt x) else NaN
  | PInf => PInf
  | NInf | NaN => NaN
  end.

(** [math.sqrt]: a negative argument raises [ValueError]. *)
Definition math_sqrt (a : float64) : outcome float64 :=
  match a with
  | Fin x => if Rle_dec 0 x then Returned (Fin (sqrt x)) else Raised ValueError
  | PInf => Returned PInf
  | NInf => Raised ValueError
  | NaN => Returned NaN
  end.

(** Division of two Python floats: a zero divisor raises. *)
Definition py_div (a b : float64) : outcome float64 :=
  match b with
  | Fin y => if Req_dec_T y 0 then Raised ZeroDivisionError else Returned (fdiv a b)
  | PInf | NInf | NaN => Returned (fdiv a b)
  end.

(** ** numpy and pandas reductions over finite data *)

Definition sum (l : list R) : R := fold_right Rplus 0 l.

Definition prod (l : list R) : R := fold_right Rmult 1 l.

Definition mean (l : list R) : R := sum l / INR (length l).

(** The central moment of order [k] (the divisor is the length). *)
Definition moment (k : nat) (l : list R) : R :=
  mean (map (fun x => (x - mean l) ^ k) l).

(** [np.mean(rets, axis=0)]: NaN on no data. *)
Definition np_mean (l : list R) : float64 :=
  match l with
  | [] => NaN
  | _ :: _ => Fin (mean l)
  end.

(** [np.std(rets, axis=0)]: the population deviation ([ddof=0]). *)
Definition np_std (l : list R) : float64 :=
  match l with
  | [] => NaN
  | _ :: _ => Fin (sqrt (mean (map (fun x => (x - mean l) * (x - mean l)) l)))
  end.

Fixpoint cumprod_from (acc : R) (l : list R) : list R :=
  match l with
  | [] => []
  | x :: rest => acc * x :: cumprod_from (acc * x) rest
  end.

(** [Series.cumprod()]. *)
Definition cumprod (l : list R) : list R :=
  match l with
  | [] => []
  | x :: rest => x :: cumprod_from x rest
  end.

Fixpoint cummax_from (acc : R) (l : list R) : list R :=
  match l with
  | [] => []
  | x :: rest => Rmax acc x :: cummax_from (Rmax acc x) rest
  end.

(** [Series.cummax()]. *)
Definition cummax (l : list R) : list R :=
  match l with
  | [] => []
  | x :: rest => x :: cummax_from x rest
  end.

(** The smaller of two entries, NaN skipped. *)
Definition min_skipna (a b : float64) : float64 :=
  match a, b with
  | NaN, _ => b
  | _, NaN => a
  | _, _ => if fgt a b then b else a
  end.

(** [Series.min()] ([skipna=True]): NaN when no entry is a number. *)
Definition series_min (l : list float64) : float64 :=
  fold_right min_skipna NaN l.

(** ** The statistics (lines 8-89) *)

Definition days_in_year : R := 365.25.

Definition Return (rets : list R) : float64 :=
  fmul (np_mean rets) (Fin days_in_year).

Definition Volatility (rets : list R) : float64 :=
  fmul (np_std rets) (np_sqrt (Fin days_in_year)).

Definition SharpeRatio (rets : list R) : float64 :=
  let volatility := Volatility rets in
  fdiv (Return rets) volatility.

Definition ROI (rets : list R) : float64 :=
  Fin (prod (map (fun r => 1 + r) rets) - 1).

Definition drawdowns (rets : list R) : list float64 :=
  let wealth_index := cumprod (map (fun r => 1 + r) rets) in
  let rolling_max := cummax wealth_index in
  map (fun wm => fdiv (Fin (fst wm - snd wm)) (Fin (snd wm)))
      (combine wealth_index rolling_max).

Definition MaxDrawdown (rets : list R) : float64 :=
  series_min (drawdowns rets).

Definition CalmarRatio (rets : list R) : float64 :=
  let mdd := MaxDrawdown rets in
  if fgt (fabs mdd) (Fin 1e-8) then fdiv (Return rets) (fabs mdd)
  else NaN.

(** The local [downside_vol] of [SortinoRatio]. *)
Definition downside_vol (rets : list R) : float64 :=
  let target := 0 in
  let downside := filter (fun r => if Rlt_dec r target then true else false) rets in
  match downside with
  | [] => Fin 0
  | _ :: _ => fmul (np_std downside) (np_sqrt (Fin days_in_year))
  end.

Definition SortinoRatio (rets : list R) : float64 :=
  if fgt (downside_vol rets) (Fin 1e-8) then fdiv (Return rets) (downside_vol rets)
  else NaN.

(** The row [statistics_calc] returns. *)
Record PerformanceReport : Type := {
  sharpe : float64;
  sortino : float64;
  calmar : float64;
  ret : float64;
  roi : float64;
  vol : float64;
  md : float64
}.

Definition statistics_calc (rets : list R) : PerformanceReport :=
  {| sharpe := SharpeRatio rets;
     sortino := SortinoRatio rets;
     calmar := CalmarRatio rets;
     ret := Return rets;
     roi := ROI rets;
     vol := Volatility rets;
     md := MaxDrawdown rets |}.

(** ** The probabilistic and the deflated Sharpe ratio (lines 120-174) *)

(** [scipy.stats.skew] (biased): the third central moment over the second to
    the power 1.5; NaN on no data and on constant data. *)
Definition skew (l : list R) : float64 :=
  match l with
  | [] => NaN
  | _ :: _ =>
      if Req_dec_T (moment 2 l) 0 then NaN
      else Fin (moment 3 l / (moment 2 l * sqrt (moment 2 l)))
  end.

(** [scipy.stats.kurtosis] (biased, Fisher): the excess kurtosis. *)
Definition kurtosis (l : list R) : float64 :=
  match l with
  | [] => NaN
  | _ :: _ =>
      if Req_dec_T (moment 2 l) 0 then NaN
      else Fin (moment 4 l / (moment 2 l * moment 2 l) - 3)
  end.

(** A scalar argument: Python's own float, or a numpy float.  The two differ
    in what a division by zero does. *)
Inductive scalar : Type :=
| PyFloat (x : float64)
| NpFloat (x : float64).

Definition value (s : scalar) : float64 :=
  match s with
  | PyFloat x | NpFloat x => x
  end.

Definition is_np (s : scalar) : bool :=
  match s with
  | PyFloat _ => false
  | NpFloat _ => true
  end.

(** The finite entries of a series, or [None] when one is infinite; NaN
    entries are skipped. *)
Fixpoint finite_values (l : list float64) : option (list R) :=
  match l with
  | [] => Some []
  | Fin x :: rest => option_map (cons x) (finite_values rest)
  | NaN :: rest => finite_values rest
  | PInf :: _ | NInf :: _ => None
  end.

(** [Series.std()]: the sample deviation ([ddof=1], [skipna=True]). *)
Definition series_std (l : list float64) : float64 :=
  match finite_values l with
  | None => NaN
  | Some [] | Some [_] => NaN
  | Some xs =>
      Fin (sqrt (sum (map (fun x => (x - mean xs) * (x - mean xs)) xs)
                 / (INR (length xs) - 1)))
  end.

(** The value of [round((1.0 - math.gamma(1 + 1.0e-8)) * 1.0e14) * 1.0e-6],
    the source's Euler-Mascheroni constant: the rounded integer is 577216. *)
Definition y : R := 577216 * 1.0e-6.

Section NormalLaw.

(** [scipy.stats.norm.cdf] on the reals. *)
Variable Phi : R -> R.

Definition norm_cdf (a : float64) : float64 :=
  match a with
  | Fin x => Fin (Phi x)
  | PInf => Fin 1
  | NInf => Fin 0
  | NaN => NaN
  end.

(** The local [stat] of [prob_sharpe]. *)
Definition prob_sharpe_stat (returns : list R) (sr_tested sr_etalon : scalar)
    : outcome float64 :=
  let y3 := skew returns in
  let y4 := fadd (kurtosis returns) (Fin 3) in
  root <- math_sqrt (Fin (INR (length returns) - 1)) ;;
  let numerator := fmul (fsub (value sr_tested) (value sr_etalon)) root in
  denominator <-
    math_sqrt (fadd (fsub (Fin 1) (fmul y3 (value sr_tested)))
                    (fdiv (fmul (fsub y4 (Fin 1)) (value sr_tested)) (Fin 4))) ;;
  if is_np sr_tested || is_np sr_etalon then Returned (fdiv numerator denominator)
  else py_div numerator denominator.

Definition prob_sharpe (returns : list R) (sr_tested sr_etalon : scalar)
    : outcome float64 :=
  stat <- prob_sharpe_stat returns sr_tested sr_etalon ;;
  Returned (norm_cdf stat).

(** The local [sr_etalon] of [deflated_sharpe]; [bagging_strategies] is the
    list of the frame's columns. *)
Definition deflated_sharpe_etalon (bagging_strategies : list (list R))
    : outcome float64 :=
  let sharpes := map SharpeRatio bagging_strategies in
  let N := length bagging_strategies in
  let sr_std := series_std sharpes in
  match N with
  | O => Raised ZeroDivisionError
  | S _ =>
      Returned
        (fmul sr_std
           (fadd (fdiv (Fin (1 - y)) (norm_cdf (Fin (1 - 1 / INR N))))
                 (fdiv (Fin y) (norm_cdf (Fin (1 - 1 / (INR N * exp 1)))))))
  end.

Definition deflated_sharpe (returns : list R)
    (bagging_strategies : list (list R)) (sr_tested : scalar)
    : outcome float64 :=
  sr_etalon <- deflated_sharpe_etalon bagging_strategies ;;
  prob_sharpe returns sr_tested (NpFloat sr_etalon).

End NormalLaw.

(** ** The formulas as the specification writes them *)

(** The z statistic of the specification's ProbabilisticSharpeRatio, for a
    series whose skewness is [skew_r] and excess kurtosis [kurtosis_excess]. *)
Definition z_spec (n : nat) (skew_r kurtosis_excess srTested srBenchmark : R) : R :=
  (srTested - srBenchmark) * sqrt (INR n - 1)
  / sqrt (1 - skew_r * srTested
          + ((kurtosis_excess + 3 - 1) / 4) * (srTested * srTested)).

(** The benchmark of the specification's DeflatedSharpeRatio, for the
    inverse [Phi_inv] of the normal distribution function and the
    Euler-Mascheroni constant [gamma]. *)
Definition srBenchmark_spec (Phi_inv : R -> R) (gamma srStd : R) (N : nat) : R :=
  srStd * ((1 - gamma) * Phi_inv (1 - 1 / INR N)
           + gamma * Phi_inv (1 - 1 / (INR N * exp 1))).

(** ** Sample series *)

Definition sample_returns : list R := [-1; 0; 0; 1].

(** Two strategies with opposite returns. *)
Definition sample_bagging : list (list R) := [[0; 2]; [0; -2]].

(** The argument of the second square root of [prob_sharpe], for a series
    of skewness [y3] and excess kurtosis [k4] (so that [y4 = k4 + 3]). *)
Definition radicand (y3 k4 sr_tested : R) : R :=
  1 - y3 * sr_tested + (k4 + 3 - 1) * sr_tested / 4.

End Backtesters.

(** * The statistics in binary64 arithmetic *)

(** [Return], [Volatility], [SharpeRatio], [MaxDrawdown] and [CalmarRatio]
    computed as numpy and pandas compute them on a [Series] of floats, every
    operation rounded. *)
Module Backtesters64.

Import Binary64.
Local Open Scope Z_scope.

Definition one : binary64 := of_Z 1.

Definition days_in_year : binary64 := literal 36525 100.

(** The values with [v] in place of each NaN. *)
Definition fill (v : binary64) (l : list binary64) : list binary64 :=
  map (fun x => if is_nan x then v else x) l.

(** The number of values that are not NaN. *)
Definition count (l : list binary64) : Z :=
  Z.of_nat (length (filter (fun x => negb (is_nan x)) l)).

(** The sum numpy returns for fewer than eight values: they are added in
    index order (a sum that is zero is given the sign plus). *)
Definition sum_in_order (l : list binary64) : binary64 := fold_left add l zero.

Section Reductions.

(** numpy's [add.reduce] over a column.  The order of its additions depends
    on the length: fewer than eight values are added in index order
    ([sum_in_order]), more are added in blocks. *)
Variable add_reduce : list binary64 -> binary64.

(** [np.mean(rets, axis=0)] of a [Series], which is [rets.mean()]: NaN
    entries are left out, and no entry gives NaN. *)
Definition np_mean (rets : list binary64) : binary64 :=
  let n := count rets in
  if n =? 0 then nan else div (add_reduce (fill zero rets)) (of_Z n).

(** [np.std(rets, axis=0)] of a [Series], which is [rets.std(ddof=0)]: the
    root of the mean squared deviation from the mean, in two passes. *)
Definition np_std (rets : list binary64) : binary64 :=
  let n := count rets in
  if n =? 0 then nan
  else
    let avg := div (add_reduce (fill zero rets)) (of_Z n) in
    let sqr := map (fun x => if is_nan x then zero
                             else mul (sub avg x) (sub avg x)) rets in
    sqrt (div (add_reduce sqr) (of_Z n)).

Definition Return (rets : list binary64) : binary64 :=
  mul (np_mean rets) days_in_year.

Definition Volatility (rets : list binary64) : binary64 :=
  mul (np_std rets) (sqrt days_in_year).

Definition SharpeRatio (rets : list binary64) : binary64 :=
  let volatility := Volatility rets in
  div (Return rets) volatility.

Fixpoint accumulate_from (f : binary64 -> binary64 -> binary64)
    (acc : binary64) (l : list binary64) : list binary64 :=
  match l with
  | [] => []
  | x :: rest => f acc x :: accumulate_from f (f acc x) rest
  end.

(** [np.cumprod] and [np.maximum.accumulate], for [f] the product and the
    maximum. *)
Definition accumulate (f : binary64 -> binary64 -> binary64)
    (l : list binary64) : list binary64 :=
  match l with
  | [] => []
  | x :: rest => x :: accumulate_from f x rest
  end.

(** A cumulative method of a [Series] ([skipna=True]): a NaN entry counts as
    [v] in the accumulation and is NaN in the result. *)
Definition na_accum (f : binary64 -> binary64 -> binary64) (v : binary64)
    (l : list binary64) : list binary64 :=
  map (fun xr => if is_nan (fst xr) then nan else snd xr)
      (combine l (accumulate f (fill v l))).

(** [np.maximum] and [np.minimum]. *)
Definition maximum (a b : binary64) : binary64 :=
  if leb b a || is_nan a then a else b.

Definition minimum (a b : binary64) : binary64 :=
  if leb a b || is_nan a then a else b.

Definition cumprod : list binary64 -> list binary64 := na_accum mul one.

Definition cummax : list binary64 -> list binary64 :=
  na_accum maximum (S754_infinity true).

(** [Series.min()] ([skipna=True]): NaN when no entry is a number. *)
Definition series_min (l : list binary64) : binary64 :=
  match filter (fun x => negb (is_nan x)) l with
  | [] => nan
  | x :: rest => fold_left minimum rest x
  end.

Definition drawdowns (rets : list binary64) : list binary64 :=
  let wealth_index := cumprod (map (add one) rets) in
  let rolling_max := cummax wealth_index in
  map (fun wm => div (sub (fst wm) (snd wm)) (snd wm))
      (combine wealth_index rolling_max).

Definition MaxDrawdown (rets : list binary64) : binary64 :=
  series_min (drawdowns rets).

Definition CalmarRatio (rets : list binary64) : binary64 :=
  let mdd := MaxDrawdown rets in
  if ltb (literal 1 100000000) (abs mdd) then div (Return rets) (abs mdd)
  else nan.

End Reductions.

(** ** Sample series *)

(** [[0.5, 0.5]]: the sum and the mean are exact. *)
Definition halves : list binary64 := [literal 1 2; literal 1 2].

(** [[0.1, 0.1, 0.1]]: the sum is 0.30000000000000004 and the mean
    0.10000000000000002, one unit in the last place above 0.1. *)
Definition tenths : list binary64 := [literal 1 10; literal 1 10; literal 1 10].

(** [[99999999.0, -1e-8]]: the wealth index is 100000000.0, 99999999.0. *)
Definition threshold_series : list binary64 :=
  [of_Z 99999999; opp (literal 1 100000000)].

End Backtesters64.

(** * Properties of the backfill *)

Module BackfillFacts.

Import DataDownloader.
Local Open Scope Z_scope.

(** ** Facts about the pandas primitives *)

Lemma insert_row_perm (r : candle) (df : DataFrame) :
  Permutation (insert_row r df) (r :: df).
Proof.
  induction df as [|x rest IH]; simpl.
  - apply Permutation_refl.
  - destruct (time r <=? time x).
    + apply Permutation_refl.
    + apply Permutation_trans with (x :: r :: rest).
      * apply perm_skip, IH.
      * apply perm_swap.
Qed.

Lemma sort_index_perm (df : DataFrame) : Permutation (sort_index df) df.
Proof.
  induction df as [|x rest IH]; simpl.
  - apply perm_nil.
  - apply Permutation_trans with (x :: sort_index rest).
    + apply insert_row_perm.
    + apply perm_skip, IH.
Qed.

Lemma sort_index_In (df : DataFrame) (r : candle) :
  In r (sort_index df) <-> In r df.
Proof.
  split; apply Permutation_in.
  - apply sort_index_perm.
  - apply Permutation_sym, sort_index_perm.
Qed.

Lemma insert_row_sorted (r : candle) (df : DataFrame) :
  StronglySorted time_le df -> StronglySorted time_le (insert_row r df).
Proof.
  induction df as [|x rest IH]; simpl; intros Hs.
  - constructor; [constructor | constructor].
  - apply StronglySorted_inv in Hs. destruct Hs as [Hrest Hx].
    destruct (time r <=? time x) eqn:E.
    + apply Z.leb_le in E. constructor.
      * constructor; assumption.
      * constructor; [exact E|].
        rewrite Forall_forall in Hx |- *. intros y Hy.
        specialize (Hx y Hy). unfold time_le in *. lia.
    + apply Z.leb_gt in E. constructor.
      * apply IH, Hrest.
      * rewrite Forall_forall in Hx |- *. intros y Hy.
        apply (Permutation_in _ (insert_row_perm r rest)) in Hy.
        destruct Hy as [<- | Hy]; [unfold time_le; lia | apply Hx, Hy].
Qed.

Lemma sort_index_sorted (df : DataFrame) :
  StronglySorted time_le (sort_index df).
Proof.
  induction df as [|x rest IH]; simpl.
  - constructor.
  - apply insert_row_sorted, IH.
Qed.

Lemma existsb_eqb_In (t : Z) (seen : list Z) :
  existsb (Z.eqb t) seen = true <-> In t seen.
Proof.
  rewrite existsb_exists. split.
  - intros [x [Hx E]]. apply Z.eqb_eq in E. subst. exact Hx.
  - intros H. exists t. split; [exact H | apply Z.eqb_refl].
Qed.

(** What [drop_duplicated] keeps is a row of the frame with an unseen index. *)
Lemma drop_duplicated_In (df : DataFrame) (seen : list Z) (r : candle) :
  In r (drop_duplicated seen df) -> In r df /\ ~ In (time r) seen.
Proof.
  revert seen. induction df as [|x rest IH]; simpl; intros seen H.
  - contradiction.
  - destruct (existsb (Z.eqb (time x)) seen) eqn:E.
    + destruct (IH _ H) as [H1 H2]. split; [right; exact H1 | exact H2].
    + destruct H as [<- | H].
      * split; [left; reflexivity|].
        intros Hin. apply existsb_eqb_In in Hin. congruence.
      * destruct (IH _ H) as [H1 H2]. split; [right; exact H1|].
        intros Hin. apply H2. right. exact Hin.
Qed.

(** Every unseen index value of the frame survives, on some row. *)
Lemma drop_duplicated_keeps (df : DataFrame) (seen : list Z) (r : candle) :
  In r df -> ~ In (time r) seen ->
  exists r', In r' (drop_duplicated seen df) /\ time r' = time r.
Proof.
  revert seen. induction df as [|x rest IH]; simpl; intros seen H Hseen.
  - contradiction.
  - destruct (existsb (Z.eqb (time x)) seen) eqn:E.
    + destruct H as [<- | H].
      * apply existsb_eqb_In in E. contradiction.
      * apply IH; assumption.
    + destruct H as [<- | H].
      * exists x. split; [left; reflexivity | reflexivity].
      * destruct (Z.eq_dec (time r) (time x)) as [Heq | Hne].
        -- exists x. split; [left; reflexivity | symmetry; exact Heq].
        -- destruct (IH (time x :: seen) H) as [r' [Hin Ht]].
           ++ intros [Hx | Hx]; [apply Hne; symmetry; exact Hx | contradiction].
           ++ exists r'. split; [right; exact Hin | exact Ht].
Qed.

Lemma drop_duplicated_sorted (df : DataFrame) (seen : list Z) :
  StronglySorted time_le df -> StronglySorted time_lt (drop_duplicated seen df).
Proof.
  revert seen. induction df as [|x rest IH]; simpl; intros seen Hs.
  - constructor.
  - apply StronglySorted_inv in Hs. destruct Hs as [Hrest Hx].
    destruct (existsb (Z.eqb (time x)) seen).
    + apply IH, Hrest.
    + constructor; [apply IH, Hrest|].
      rewrite Forall_forall in Hx |- *. intros y Hy.
      apply drop_duplicated_In in Hy. destruct Hy as [Hy Hns].
      specialize (Hx y Hy). unfold time_le, time_lt in *.
      assert (time y <> time x) by (intros E; apply Hns; left; symmetry; exact E).
      lia.
Qed.

Lemma filter_sorted (f : candle -> bool) (df : DataFrame) :
  StronglySorted time_lt df -> StronglySorted time_lt (filter f df).
Proof.
  induction df as [|x rest IH]; simpl; intros Hs.
  - constructor.
  - apply StronglySorted_inv in Hs. destruct Hs as [Hrest Hx].
    destruct (f x).
    + constructor; [apply IH, Hrest|].
      rewrite Forall_forall in Hx |- *. intros y Hy.
      apply filter_In in Hy. apply Hx, Hy.
    + apply IH, Hrest.
Qed.

Lemma in_range_spec (s e : Z) (r : candle) :
  in_range s e r = true <-> s <= time r <= e.
Proof.
  unfold in_range. rewrite andb_true_iff, !Z.leb_le. reflexivity.
Qed.

(** The merged frame of any pages is a SeriesTable of the window. *)
Lemma merge_SeriesTable (s e : Z) (all_dfs : list DataFrame) :
  SeriesTable s e (merge s e all_dfs).
Proof.
  unfold SeriesTable, merge. destruct all_dfs as [|d l].
  - split; constructor.
  - split.
    + apply filter_sorted, drop_duplicated_sorted, sort_index_sorted.
    + rewrite Forall_forall. intros r Hr.
      apply filter_In in Hr. apply in_range_spec, Hr.
Qed.

Lemma merge_In (s e : Z) (all_dfs : list DataFrame) (r : candle) :
  In r (merge s e all_dfs) -> In r (concat all_dfs).
Proof.
  unfold merge. destruct all_dfs as [|d l]; [contradiction|].
  intros H. apply filter_In in H. destruct H as [H _].
  apply drop_duplicated_In in H. destruct H as [H _].
  apply (proj1 (sort_index_In _ _)) in H. exact H.
Qed.

(** Two frames with strictly increasing index and the same rows are equal. *)
Lemma sorted_same_rows (a b : DataFrame) :
  StronglySorted time_lt a -> StronglySorted time_lt b ->
  (forall r, In r a <-> In r b) -> a = b.
Proof.
  revert b. induction a as [|x a IH]; intros b Ha Hb Hab.
  - destruct b as [|y b]; [reflexivity|].
    exfalso. apply (proj2 (Hab y)). left. reflexivity.
  - destruct b as [|y b].
    + exfalso. apply (proj1 (Hab x)). left. reflexivity.
    + apply StronglySorted_inv in Ha. destruct Ha as [Ha Hx].
      apply StronglySorted_inv in Hb. destruct Hb as [Hb Hy].
      rewrite Forall_forall in Hx, Hy. unfold time_lt in Hx, Hy.
      assert (Exy : x = y).
      { destruct (proj1 (Hab x) (or_introl eq_refl)) as [E | Hxb];
          [symmetry; exact E|].
        destruct (proj2 (Hab y) (or_introl eq_refl)) as [E | Hya];
          [exact E|].
        specialize (Hx y Hya). specialize (Hy x Hxb). lia. }
      subst y. f_equal. apply IH; try assumption.
      intros r. split; intros Hr.
      * destruct (proj1 (Hab r) (or_intror Hr)) as [E | H]; [|exact H].
        subst r. specialize (Hx x Hr). lia.
      * destruct (proj2 (Hab r) (or_intror Hr)) as [E | H]; [|exact H].
        subst r. specialize (Hy x Hr). lia.
Qed.

Lemma sorted_time_inj (df : DataFrame) (a b : candle) :
  StronglySorted time_lt df -> In a df -> In b df -> time a = time b -> a = b.
Proof.
  induction df as [|x rest IH]; intros Hs Ha Hb E; [contradiction|].
  apply StronglySorted_inv in Hs. destruct Hs as [Hrest Hx].
  rewrite Forall_forall in Hx. unfold time_lt in Hx.
  destruct Ha as [<- | Ha]; destruct Hb as [<- | Hb].
  - reflexivity.
  - specialize (Hx b Hb). lia.
  - specialize (Hx a Ha). lia.
  - apply IH; assumption.
Qed.

Lemma sorted_NoDup (df : DataFrame) :
  StronglySorted time_lt df -> NoDup (map time df).
Proof.
  induction df as [|x rest IH]; simpl; intros Hs.
  - constructor.
  - apply StronglySorted_inv in Hs. destruct Hs as [Hrest Hx].
    constructor; [|apply IH, Hrest].
    rewrite Forall_forall in Hx. intros Hin.
    apply in_map_iff in Hin. destruct Hin as [y [E Hy]].
    specialize (Hx y Hy). unfold time_lt in Hx. lia.
Qed.

(** ** Facts about the walk *)

Section WalkFacts.

Variable fetch : nat -> Z -> DataFrame.
Variables start_time start_ms : Z.

Lemma walk_S (fuel i : nat) (all_dfs : list DataFrame) (current_end : Z) :
  walk fetch start_time start_ms (S fuel) i all_dfs current_end =
  match fetch i current_end with
  | [] => Some (all_dfs, S i)
  | (_ :: _) as df =>
      match filter (fun r => start_time <=? time r) df with
      | [] => Some (all_dfs, S i)
      | (first :: _) as df =>
          if timestamp_ms_utc (time first) <=? start_ms then
            Some (all_dfs ++ [df], S i)
          else if max_pages <? Z.of_nat (length (all_dfs ++ [df])) then
            Some (all_dfs ++ [df], S i)
          else walk fetch start_time start_ms fuel (S i) (all_dfs ++ [df])
                    (timestamp_ms_utc (time first) - 1)
      end
  end.
Proof. reflexivity. Qed.

(** The cap makes the loop finite: a pass either leaves it or adds a page. *)
Lemma walk_terminates (fuel i : nat) (all_dfs : list DataFrame) (ce : Z) :
  (0 < fuel)%nat ->
  max_pages < Z.of_nat (length all_dfs) + Z.of_nat fuel ->
  exists res, walk fetch start_time start_ms fuel i all_dfs ce = Some res.
Proof.
  revert i all_dfs ce. induction fuel as [|fuel IH]; intros i all_dfs ce Hpos Hcap.
  - lia.
  - rewrite walk_S. destruct (fetch i ce) as [|c l]; [eexists; reflexivity|].
    destruct (filter (fun r => start_time <=? time r) (c :: l)) as [|first rest]; [eexists; reflexivity|].
    cbv zeta. destruct (timestamp_ms_utc (time first) <=? start_ms); [eexists; reflexivity|].
    destruct (max_pages <? Z.of_nat (length (all_dfs ++ [first :: rest]))) eqn:E; [eexists; reflexivity|].
    apply Z.ltb_ge in E. rewrite length_app in E. simpl in E.
    apply IH.
    + lia.
    + rewrite length_app. simpl. lia.
Qed.

(** Every retained page is a filtered page of the fetcher. *)
Lemma walk_pages (P : candle -> Prop) :
  (forall i ce, Forall P (fetch i ce)) ->
  forall (fuel i : nat) (all_dfs : list DataFrame) (ce : Z) res,
    Forall (Forall P) all_dfs ->
    walk fetch start_time start_ms fuel i all_dfs ce = Some res ->
    Forall (Forall P) (fst res).
Proof.
  intros Hfetch. induction fuel as [|fuel IH]; intros i all_dfs ce res Hall Hw.
  - discriminate.
  - rewrite walk_S in Hw. specialize (Hfetch i ce).
    destruct (fetch i ce) as [|c l]; [inversion Hw; exact Hall|].
    assert (Hf : Forall P (filter (fun r => start_time <=? time r) (c :: l))).
    { rewrite Forall_forall in Hfetch |- *. intros r Hr.
      apply filter_In in Hr. apply Hfetch, Hr. }
    destruct (filter (fun r => start_time <=? time r) (c :: l)) as [|first rest]; [inversion Hw; exact Hall|].
    assert (Hall' : Forall (Forall P) (all_dfs ++ [first :: rest])).
    { apply Forall_app. split; [exact Hall | constructor; [exact Hf | constructor]]. }
    cbv zeta in Hw.
    destruct (timestamp_ms_utc (time first) <=? start_ms); [inversion Hw; exact Hall'|].
    destruct (max_pages <? Z.of_nat (length (all_dfs ++ [first :: rest]))); [inversion Hw; exact Hall'|].
    eapply IH; eassumption.
Qed.

(** When no page reaches the start, the loop is left by the cap alone, in
    the pass that retains page number [max_pages + 1]. *)
Lemma walk_capped :
  (forall i ce, exists first rest,
      filter (fun r => start_time <=? time r) (fetch i ce) = first :: rest /\
      start_ms < timestamp_ms_utc (time first)) ->
  forall (fuel i : nat) (all_dfs : list DataFrame) (ce : Z),
    Z.of_nat (length all_dfs) <= max_pages ->
    max_pages < Z.of_nat (length all_dfs) + Z.of_nat fuel ->
    exists dfs n,
      walk fetch start_time start_ms fuel i all_dfs ce = Some (dfs, n) /\
      Z.of_nat (length dfs) = max_pages + 1 /\
      Z.of_nat n = Z.of_nat i + (max_pages + 1 - Z.of_nat (length all_dfs)).
Proof.
  intros Hnever. induction fuel as [|fuel IH]; intros i all_dfs ce Hlen Hcap.
  - lia.
  - rewrite walk_S. destruct (Hnever i ce) as [first [rest [Hf Hlate]]].
    destruct (fetch i ce) as [|c l] eqn:Ef; [discriminate Hf|].
    rewrite Hf. cbv zeta. destruct (timestamp_ms_utc (time first) <=? start_ms) eqn:E1; [apply Z.leb_le in E1; exfalso; lia|].
    destruct (max_pages <? Z.of_nat (length (all_dfs ++ [first :: rest]))) eqn:E2.
    + apply Z.ltb_lt in E2. rewrite length_app in E2. cbn [length] in E2.
      exists (all_dfs ++ [first :: rest]), (S i).
      split; [reflexivity|]. rewrite length_app. cbn [length]. lia.
    + apply Z.ltb_ge in E2. rewrite length_app in E2. cbn [length] in E2.
      destruct (IH (S i) (all_dfs ++ [first :: rest])
                   (timestamp_ms_utc (time first) - 1)) as [dfs [n [Hw [Hl Hn]]]].
      * rewrite length_app. cbn [length]. lia.
      * rewrite length_app. cbn [length]. lia.
      * exists dfs, n. split; [exact Hw|]. split; [exact Hl|].
        rewrite length_app in Hn. cbn [length] in Hn. lia.
Qed.

End WalkFacts.


(** ** The backfill entry points *)

(** A page is empty, or the sorted rows of a payload with return code 0
    whose stamps are all in bounds. *)
Lemma kline_frame_cases (r : response) :
  kline_frame r = [] \/
  exists retMsg klines,
    r = Payload 0 retMsg klines /\
    forallb (fun k => in_bounds (k_timestamp k)) klines = true /\
    kline_frame r = sort_index (map token_row klines).
Proof.
  destruct r as [| | |retCode retMsg klines]; try (left; reflexivity).
  unfold kline_frame. destruct (retCode =? 0) eqn:E; [|left; reflexivity].
  apply Z.eqb_eq in E. subst retCode.
  destruct klines as [|k ks]; [left; reflexivity|].
  destruct (forallb (fun k => in_bounds (k_timestamp k)) (k :: ks)) eqn:B;
    [|left; reflexivity].
  right. exists retMsg, (k :: ks). repeat split. exact B.
Qed.

Lemma kline_frame_open_only (r : response) : Forall open_only (kline_frame r).
Proof.
  destruct (kline_frame_cases r) as [-> | [retMsg [klines [_ [_ ->]]]]];
    [constructor|].
  rewrite Forall_forall. intros x Hx.
  apply (proj1 (sort_index_In _ _)) in Hx.
  apply in_map_iff in Hx. destruct Hx as [k' [<- _]].
  split; reflexivity.
Qed.


Lemma enough_fuel_enough : (0 < enough_fuel)%nat /\
  max_pages < Z.of_nat (@length DataFrame []) + Z.of_nat enough_fuel.
Proof. unfold enough_fuel, max_pages. cbn [length]. lia. Qed.

Section BackfillEntry.

Variable fromisoformat : string -> option Z.
Variable timestamp_ms : Z -> Z.
Variable now : Z.
Variable page : (request -> response) -> string -> string -> Z ->
                option Z -> option Z -> DataFrame.

Lemma backfill_returns (server : service) (symbol interval : string)
    (start_time end_time : time_arg) :
  exists o, backfill fromisoformat timestamp_ms now page server symbol interval
                     start_time end_time = Some o.
Proof.
  unfold backfill.
  destruct (period fromisoformat now start_time end_time) as [[s e]|err];
    [|eexists; reflexivity].
  destruct (walk_terminates (fetch_page page server symbol interval (timestamp_ms s))
              s (timestamp_ms s) enough_fuel 0 [] (timestamp_ms e)
              (proj1 enough_fuel_enough) (proj2 enough_fuel_enough))
    as [[all_dfs n] Hw].
  rewrite Hw. eexists; reflexivity.
Qed.

Lemma backfill_table (server : service) (symbol interval : string)
    (start_time end_time : time_arg) (df : DataFrame) :
  backfill fromisoformat timestamp_ms now page server symbol interval
           start_time end_time = Some (Returned df) ->
  exists s e all_dfs n,
    period fromisoformat now start_time end_time = Returned (s, e) /\
    walk (fetch_page page server symbol interval (timestamp_ms s))
         s (timestamp_ms s) enough_fuel 0 [] (timestamp_ms e)
      = Some (all_dfs, n) /\
    df = merge s e all_dfs.
Proof.
  unfold backfill.
  destruct (period fromisoformat now start_time end_time) as [[s e]|err];
    [|discriminate].
  destruct (walk _ s (timestamp_ms s) enough_fuel 0 [] (timestamp_ms e))
    as [[all_dfs n]|] eqn:Hw; [|discriminate].
  intros H. inversion H. exists s, e, all_dfs, n.
  split; [reflexivity|]. split; [exact Hw | reflexivity].
Qed.

Lemma backfill_open_only (server : service) (symbol interval : string)
    (start_time end_time : time_arg) (df : DataFrame) :
  (forall http s i l a b, Forall open_only (page http s i l a b)) ->
  backfill fromisoformat timestamp_ms now page server symbol interval
           start_time end_time = Some (Returned df) ->
  Forall open_only df.
Proof.
  intros Hpage H. apply backfill_table in H.
  destruct H as [s [e [all_dfs [n [_ [Hw ->]]]]]].
  apply walk_pages with (P := open_only) in Hw.
  - simpl in Hw. rewrite Forall_forall in Hw |- *. intros r Hr.
    apply merge_In in Hr. apply in_concat in Hr.
    destruct Hr as [d [Hd Hr]]. specialize (Hw d Hd).
    rewrite Forall_forall in Hw. apply Hw, Hr.
  - intros i ce. apply Hpage.
  - constructor.
Qed.

End BackfillEntry.


(** ** The claims on the backfill *)

(** The stamp the loop computes for each of the 20 candles the late service
    can send is later than 0. *)
Lemma late_stamps_positive :
  forallb (fun n => 0 <? timestamp_ms_utc (to_datetime_ms (1000 * Z.of_nat n)))
          (seq 1 20) = true.
Proof. vm_compute. reflexivity. Qed.

Lemma late_server_never_reaches : never_reaches late_server 0 0.
Proof.
  intros i q. unfold late_server.
  set (k := Z.max 1 (Z.min 20 ((match end_ q with Some e => e | None => 1000 end)
                               / 1000))).
  assert (Hk : 1 <= k <= 20) by (unfold k; lia).
  assert (B : in_bounds (1000 * k) = true).
  { unfold in_bounds. apply andb_true_iff. split; apply Z.leb_le; lia. }
  exists (token_row (sample_kline (1000 * k))), [].
  cbn [kline_frame Z.eqb forallb sample_kline k_timestamp].
  rewrite B.
  cbn [andb map sort_index fold_right insert_row filter
       token_row time sample_kline k_timestamp].
  assert (E : (0 <=? to_datetime_ms (1000 * k)) = true).
  { apply Z.leb_le. unfold to_datetime_ms. lia. }
  rewrite E. split; [reflexivity|].
  apply Z.ltb_lt. pose proof late_stamps_positive as H.
  rewrite forallb_forall in H. specialize (H (Z.to_nat k)).
  rewrite Z2Nat.id in H by lia. apply H. apply in_seq. lia.
Qed.

(** The stamp of the earliest candle is a float product cut to an integer,
    and can come out one millisecond low: a candle at 1001 ms has the stamp
    1000, so that a page starting one millisecond after a start at 1000 ms
    reaches the start and ends the loop. *)
Lemma stamp_one_millisecond_low :
  timestamp_ms_utc (to_datetime_ms 1001) = 1000 /\
  timestamp_ms_utc (to_datetime_ms 1002) = 1002 /\
  walk (fun _ _ => [token_row (sample_kline 1001)]) 1000000 1000
       enough_fuel 0 [] 2000
    = Some ([[token_row (sample_kline 1001)]], 1%nat).
Proof. repeat split; vm_compute; reflexivity. Qed.

(** C3 (as amended): when no page of the service reaches the start as the
    loop tests it (the stamp it computes for the earliest candle of every
    page is later than [start_ms]), the spot and the futures walk are ended
    by the cap, in the pass that retains page number 10,001 and after as
    many requests, and the call returns the merge of these pages. *)
Theorem capped_walk_returns_partial_table
    (fromisoformat : string -> option Z) (timestamp_ms : Z -> Z) (now : Z)
    (server : service) (symbol interval : string) (s e : Z) :
  never_reaches server s (timestamp_ms s) ->
  (exists all_dfs n,
      walk (fetch_page get_spot_prices_bybit server symbol interval (timestamp_ms s))
           s (timestamp_ms s) enough_fuel 0 [] (timestamp_ms e)
        = Some (all_dfs, n) /\
      Z.of_nat n = max_pages + 1 /\
      Z.of_nat (length all_dfs) = max_pages + 1 /\
      get_spot_data_bybit_full_period fromisoformat timestamp_ms now server
          symbol interval (ArgDatetime s) (ArgDatetime e)
        = Some (Returned (merge s e all_dfs))) /\
  (exists all_dfs n,
      walk (fetch_page get_future_price_bybit server symbol interval (timestamp_ms s))
           s (timestamp_ms s) enough_fuel 0 [] (timestamp_ms e)
        = Some (all_dfs, n) /\
      Z.of_nat n = max_pages + 1 /\
      Z.of_nat (length all_dfs) = max_pages + 1 /\
      get_future_data_bybit_full_period fromisoformat timestamp_ms now server
          symbol interval (ArgDatetime s) (ArgDatetime e)
        = Some (Returned (merge s e all_dfs))).
Proof.
  intros Hnever.
  split.
  - destruct (walk_capped
                (fetch_page get_spot_prices_bybit server symbol interval (timestamp_ms s))
                s (timestamp_ms s)) with (fuel := enough_fuel) (i := O)
                (all_dfs := @nil DataFrame) (ce := timestamp_ms e)
      as [dfs [n [Hw [Hl Hn]]]].
    + intros i ce. apply Hnever.
    + cbn [length]. unfold max_pages. lia.
    + apply enough_fuel_enough.
    + exists dfs, n. split; [exact Hw|]. split; [cbn [length] in Hn; lia|].
      split; [exact Hl|].
      unfold get_spot_data_bybit_full_period, backfill. cbn [period parse_arg bind].
      rewrite Hw. reflexivity.
  - destruct (walk_capped
                (fetch_page get_future_price_bybit server symbol interval (timestamp_ms s))
                s (timestamp_ms s)) with (fuel := enough_fuel) (i := O)
                (all_dfs := @nil DataFrame) (ce := timestamp_ms e)
      as [dfs [n [Hw [Hl Hn]]]].
    + intros i ce. apply Hnever.
    + cbn [length]. unfold max_pages. lia.
    + apply enough_fuel_enough.
    + exists dfs, n. split; [exact Hw|]. split; [cbn [length] in Hn; lia|].
      split; [exact Hl|].
      unfold get_future_data_bybit_full_period, backfill. cbn [period parse_arg bind].
      rewrite Hw. reflexivity.
Qed.

(** C3, witness: the service that always answers one candle at the requested
    end never reaches a start at 0. *)
Lemma capped_walk_witness :
  (exists all_dfs n,
      walk (fetch_page get_spot_prices_bybit late_server "SOLUSDT" "60"
                       (utc_timestamp_ms 0))
           0 (utc_timestamp_ms 0) enough_fuel 0 [] (utc_timestamp_ms 20000000)
        = Some (all_dfs, n) /\
      Z.of_nat n = max_pages + 1 /\
      Z.of_nat (length all_dfs) = max_pages + 1 /\
      get_spot_data_bybit_full_period no_iso utc_timestamp_ms 0 late_server
          "SOLUSDT" "60" (ArgDatetime 0) (ArgDatetime 20000000)
        = Some (Returned (merge 0 20000000 all_dfs))) /\
  (exists all_dfs n,
      walk (fetch_page get_future_price_bybit late_server "SOLUSDT" "60"
                       (utc_timestamp_ms 0))
           0 (utc_timestamp_ms 0) enough_fuel 0 [] (utc_timestamp_ms 20000000)
        = Some (all_dfs, n) /\
      Z.of_nat n = max_pages + 1 /\
      Z.of_nat (length all_dfs) = max_pages + 1 /\
      get_future_data_bybit_full_period no_iso utc_timestamp_ms 0 late_server
          "SOLUSDT" "60" (ArgDatetime 0) (ArgDatetime 20000000)
        = Some (Returned (merge 0 20000000 all_dfs))).
Proof.
  apply (capped_walk_returns_partial_table no_iso utc_timestamp_ms 0 late_server
           "SOLUSDT" "60" 0 20000000).
  exact late_server_never_reaches.
Defined.

(** C3, counterexample: against the service that never reaches the start the
    spot backfill raises nothing.  The walk issues 10,001 requests, one more
    than the cap, and the call returns the merge of the 10,001 pages it has. *)
Lemma cap_returns_without_error :
  match walk (fetch_page get_spot_prices_bybit late_server "SOLUSDT" "60" 0)
             0 0 enough_fuel 0 [] 20000 with
  | Some (all_dfs, n) => Some (Z.of_nat (length all_dfs), Z.of_nat n)
  | None => None
  end = Some (10001, 10001) /\
  exists all_dfs,
    get_spot_data_bybit_full_period no_iso utc_timestamp_ms 0 late_server
        "SOLUSDT" "60" (ArgDatetime 0) (ArgDatetime 20000000)
      = Some (Returned (merge 0 20000000 all_dfs)) /\
    Z.of_nat (length all_dfs) = 10001.
Proof.
  destruct (walk_capped
              (fetch_page get_spot_prices_bybit late_server "SOLUSDT" "60" 0) 0 0)
    with (fuel := enough_fuel) (i := O) (all_dfs := @nil DataFrame) (ce := 20000)
    as [dfs [n [Hw [Hl Hn]]]].
  - intros i ce. apply late_server_never_reaches.
  - cbn [length]. unfold max_pages. lia.
  - apply enough_fuel_enough.
  - split.
    + rewrite Hw, Hl, Hn. reflexivity.
    + exists dfs. split; [|exact Hl].
      unfold get_spot_data_bybit_full_period, backfill.
      cbn [period parse_arg bind].
      change (utc_timestamp_ms 0) with 0.
      change (utc_timestamp_ms 20000000) with 20000.
      rewrite Hw. reflexivity.
Qed.



(** C5: whatever the service answers, the spot and the futures backfill
    return, and a returned table has a strictly increasing index without
    repeated values, inside the requested period. *)
Theorem backfill_strictly_increasing_in_window
    (fromisoformat : string -> option Z) (timestamp_ms : Z -> Z) (now : Z)
    (server : service) (symbol interval : string)
    (start_time end_time : time_arg) :
  (exists o, get_spot_data_bybit_full_period fromisoformat timestamp_ms now
               server symbol interval start_time end_time = Some o) /\
  (exists o, get_future_data_bybit_full_period fromisoformat timestamp_ms now
               server symbol interval start_time end_time = Some o) /\
  (forall df,
      get_spot_data_bybit_full_period fromisoformat timestamp_ms now server
          symbol interval start_time end_time = Some (Returned df) \/
      get_future_data_bybit_full_period fromisoformat timestamp_ms now server
          symbol interval start_time end_time = Some (Returned df) ->
      exists s e,
        period fromisoformat now start_time end_time = Returned (s, e) /\
        StronglySorted time_lt df /\
        NoDup (map time df) /\
        Forall (fun r => s <= time r <= e) df).
Proof.
  split; [apply backfill_returns|]. split; [apply backfill_returns|].
  intros df [H | H]; apply backfill_table in H;
    destruct H as [s [e [all_dfs [n [Hp [_ ->]]]]]];
    exists s, e; (split; [exact Hp|]);
    destruct (merge_SeriesTable s e all_dfs) as [Hs Hw];
    (split; [exact Hs|]); (split; [apply sorted_NoDup, Hs | exact Hw]).
Qed.

(** C7: merging a table that is sorted, free of repeated index values and
    inside its window with itself gives the table back; in particular the
    merge of any pages is a fixed point of merging it with itself. *)
Theorem merge_idempotent (start_time end_time : Z) :
  (forall df, SeriesTable start_time end_time df ->
     merge start_time end_time [df; df] = df) /\
  (forall all_dfs,
     merge start_time end_time
       [merge start_time end_time all_dfs; merge start_time end_time all_dfs]
     = merge start_time end_time all_dfs).
Proof.
  assert (Hfix : forall df, SeriesTable start_time end_time df ->
                   merge start_time end_time [df; df] = df).
  { intros df [Hs Hw].
    apply sorted_same_rows; [apply merge_SeriesTable | exact Hs |].
    intros r. split.
    - intros H. apply merge_In in H. simpl in H. rewrite app_nil_r in H.
      apply in_app_or in H. destruct H; assumption.
    - intros H. unfold merge. apply filter_In. split.
      + assert (Hin : In r (sort_index (concat [df; df]))).
        { apply sort_index_In. simpl. apply in_or_app. left. exact H. }
        destruct (drop_duplicated_keeps _ [] r Hin) as [r' [Hr' Ht]];
          [intros []|].
        assert (Hr'df : In r' df).
        { apply drop_duplicated_In in Hr'. destruct Hr' as [Hr' _].
          apply (proj1 (sort_index_In _ _)) in Hr'. simpl in Hr'.
          rewrite app_nil_r in Hr'. apply in_app_or in Hr'.
          destruct Hr'; assumption. }
        rewrite <- (sorted_time_inj df r' r Hs Hr'df H Ht). exact Hr'.
      + apply in_range_spec. rewrite Forall_forall in Hw. apply Hw, H. }
  split; [exact Hfix|].
  intros all_dfs. apply Hfix, merge_SeriesTable.
Qed.

(** C7, witness: a table of two candles in the window from 0 to 300 ms. *)
Lemma merge_idempotent_witness : merge 0 300000 [two_rows; two_rows] = two_rows.
Proof.
  apply (proj1 (merge_idempotent 0 300000) two_rows).
  split.
  - apply SSorted_cons.
    + apply SSorted_cons; [apply SSorted_nil | apply Forall_nil].
    + apply Forall_cons; [apply Z.ltb_lt; reflexivity | apply Forall_nil].
  - apply Forall_cons; [split; apply Z.leb_le; reflexivity|].
    apply Forall_cons; [split; apply Z.leb_le; reflexivity | apply Forall_nil].
Defined.

(** C9: every row of a page of either fetcher, and every row of a table
    either backfill returns, carries the source's open value in its high and
    low columns, whatever high and low the source sent. *)
Theorem high_and_low_repeat_open
    (fromisoformat : string -> option Z) (timestamp_ms : Z -> Z) (now : Z)
    (server : service) (symbol interval : string)
    (start_time end_time : time_arg) :
  (forall http limit a b,
      Forall open_only (get_spot_prices_bybit http symbol interval limit a b) /\
      Forall open_only (get_future_price_bybit http symbol interval limit a b)) /\
  (forall k, col_open (token_row k) = k_open k /\
             col_high (token_row k) = k_open k /\
             col_low (token_row k) = k_open k) /\
  (forall df,
      get_spot_data_bybit_full_period fromisoformat timestamp_ms now server
          symbol interval start_time end_time = Some (Returned df) \/
      get_future_data_bybit_full_period fromisoformat timestamp_ms now server
          symbol interval start_time end_time = Some (Returned df) ->
      Forall open_only df).
Proof.
  split; [|split].
  - intros http limit a b. split; apply kline_frame_open_only.
  - intros k. repeat split.
  - intros df [H | H]; (eapply backfill_open_only; [|exact H]);
      intros http s i l a b; apply kline_frame_open_only.
Qed.

(** ** The hourly funding grid *)
























(** ** Further properties of the backfill *)

(** X1: a first page whose earliest candle is at or before the start ends the
    walk after one request, with that page alone. *)
Lemma walk_one_page (fetch : nat -> Z -> DataFrame) (start_time start_ms : Z)
    (fuel : nat) (current_end : Z) (first : candle) (rest : DataFrame) :
  filter (fun r => start_time <=? time r) (fetch O current_end) = first :: rest ->
  timestamp_ms_utc (time first) <= start_ms ->
  walk fetch start_time start_ms (S fuel) 0 [] current_end
    = Some ([first :: rest], 1%nat).
Proof.
  intros Hf Hle. rewrite walk_S.
  destruct (fetch O current_end) as [|c l] eqn:Ef; [discriminate Hf|].
  rewrite Hf. cbv zeta. apply Z.leb_le in Hle. rewrite Hle. reflexivity.
Qed.

(** Witness: one candle at 200 ms, for a start at 200 ms. *)
Lemma walk_one_page_witness :
  walk (fun _ _ => [token_row (sample_kline 200)]) 200000 200 (S 5) 0 [] 300
    = Some ([[token_row (sample_kline 200)]], 1%nat).
Proof.
  apply (walk_one_page (fun _ _ => [token_row (sample_kline 200)]) 200000 200
           5 300 (token_row (sample_kline 200)) []).
  - reflexivity.
  - apply Z.leb_le. reflexivity.
Defined.

(** X2: when the first request yields no candle (no data, or a failure), the
    backfill returns the empty table. *)
Lemma empty_first_page_returns_empty_table
    (fromisoformat : string -> option Z) (timestamp_ms : Z -> Z) (now : Z)
    (server : service) (symbol interval : string) (s e : Z) :
  (forall q, kline_frame (server O q) = []) ->
  get_spot_data_bybit_full_period fromisoformat timestamp_ms now server
      symbol interval (ArgDatetime s) (ArgDatetime e) = Some (Returned []) /\
  get_future_data_bybit_full_period fromisoformat timestamp_ms now server
      symbol interval (ArgDatetime s) (ArgDatetime e) = Some (Returned []).
Proof.
  intros Hempty.
  unfold get_spot_data_bybit_full_period, get_future_data_bybit_full_period,
    backfill.
  cbn [period parse_arg bind]. unfold enough_fuel. rewrite !walk_S.
  unfold fetch_page, get_spot_prices_bybit, get_future_price_bybit.
  rewrite !Hempty. split; reflexivity.
Qed.

(** Witness: a service that is down. *)
Lemma empty_first_page_witness :
  get_spot_data_bybit_full_period no_iso utc_timestamp_ms 0
      (fun _ _ => ConnectionFailed) "SOLUSDT" "60"
      (ArgDatetime 0) (ArgDatetime 300000) = Some (Returned []) /\
  get_future_data_bybit_full_period no_iso utc_timestamp_ms 0
      (fun _ _ => ConnectionFailed) "SOLUSDT" "60"
      (ArgDatetime 0) (ArgDatetime 300000) = Some (Returned []).
Proof.
  apply (empty_first_page_returns_empty_table no_iso utc_timestamp_ms 0
           (fun _ _ => ConnectionFailed) "SOLUSDT" "60" 0 300000).
  intros q. reflexivity.
Defined.

(** An instance of the missing cap: against a service that repeats a page
    later than the start it is never left, whatever the number of passes. *)
Lemma funding_walk_never_left (fuel i : nat) (all_rates : list funding_rate)
    (current_end : Z) :
  funding_walk same_page_server "SOLUSDT" 0 fuel i all_rates current_end = None.
Proof.
  revert i all_rates current_end.
  induction fuel as [|fuel IH]; intros i all_rates current_end.
  - reflexivity.
  - cbn [funding_walk]. unfold get_funding_rates, same_page_server.
    cbn. apply IH.
Qed.

(** [Series.drop_duplicates()] compares rates, not times: of two payments
    with the same rate, at 01:00 and at 02:00, the grid keeps the first and
    carries 0 at the hour of the second. *)
Lemma equal_rates_collapse :
  hourly_grid 0 10800000000
      (funding_frame 0 10800000000 [sample_rate 3600000; sample_rate 7200000])
    = Returned [(0, 0%Q); (3600000000, 1 # 10000); (7200000000, 0%Q);
                (10800000000, 0%Q)].
Proof. vm_compute. reflexivity. Qed.

Lemma period_of_invalid (fromisoformat : string -> option Z) (now : Z)
    (start_time end_time : time_arg) :
  valid_start fromisoformat start_time && valid_end fromisoformat end_time = false ->
  period fromisoformat now start_time end_time = Raised ValueError.
Proof.
  unfold period, parse_arg, bind, valid_end, valid_start.
  destruct start_time as [ss|ts| |];
    try destruct (fromisoformat ss);
    destruct end_time as [es|te| |];
    try destruct (fromisoformat es);
    simpl; try discriminate; reflexivity.
Qed.

(** X3: an argument of the wrong form makes the backfills raise
    [ValueError], whatever the service would answer: a [start_time] that is
    neither a datetime nor a string [fromisoformat] reads (the default
    [None] included), or an [end_time] that is neither [None], a datetime
    nor such a string. *)
Lemma bad_arguments_raise_value_error
    (fromisoformat : string -> option Z) (timestamp_ms : Z -> Z) (now : Z)
    (server : service) (symbol interval : string)
    (start_time end_time : time_arg) :
  valid_start fromisoformat start_time && valid_end fromisoformat end_time = false ->
  get_spot_data_bybit_full_period fromisoformat timestamp_ms now
    server symbol interval start_time end_time = Some (Raised ValueError) /\
  get_future_data_bybit_full_period fromisoformat timestamp_ms now
    server symbol interval start_time end_time = Some (Raised ValueError).
Proof.
  intros Hv.
  unfold get_spot_data_bybit_full_period, get_future_data_bybit_full_period,
    backfill.
  rewrite (period_of_invalid fromisoformat now start_time end_time Hv).
  split; reflexivity.
Qed.

(** X3, witness: a call that leaves [start_time] at its default. *)
Lemma bad_arguments_witness :
  get_spot_data_bybit_full_period no_iso utc_timestamp_ms 0
    failing_server "SOLUSDT" "60" ArgNone ArgNone = Some (Raised ValueError) /\
  get_future_data_bybit_full_period no_iso utc_timestamp_ms 0
    failing_server "SOLUSDT" "60" ArgNone ArgNone = Some (Raised ValueError).
Proof.
  apply (bad_arguments_raise_value_error no_iso utc_timestamp_ms 0
           failing_server "SOLUSDT" "60" ArgNone ArgNone).
  reflexivity.
Defined.

(** X4: the merge invents no row and loses no instant: its rows are rows of the
    pages, and every instant of a page inside the window is the instant of
    one of its rows. *)
Lemma merge_keeps_every_instant (start_time end_time : Z)
    (all_dfs : list DataFrame) :
  (forall r, In r (merge start_time end_time all_dfs) -> In r (concat all_dfs)) /\
  (forall r, In r (concat all_dfs) -> start_time <= time r <= end_time ->
     exists r', In r' (merge start_time end_time all_dfs) /\ time r' = time r).
Proof.
  split; [intros r; apply merge_In|].
  intros r Hr Hw. unfold merge.
  destruct all_dfs as [|d l]; [contradiction|].
  assert (Hs : In r (sort_index (concat (d :: l)))) by (apply sort_index_In, Hr).
  destruct (drop_duplicated_keeps _ [] r Hs) as [r' [Hr' Ht]]; [intros []|].
  exists r'. split; [|exact Ht].
  apply filter_In. split; [exact Hr'|].
  apply in_range_spec. rewrite Ht. exact Hw.
Qed.

(** A walk from a list of at most [max_pages] pages issues one request per
    page it adds, and one more when an empty page ends it; it never holds
    more than [max_pages + 1] pages. *)
Lemma walk_counts (fetch : nat -> Z -> DataFrame) (start_time start_ms : Z)
    (fuel i : nat) (all_dfs : list DataFrame) (current_end : Z)
    (dfs : list DataFrame) (n : nat) :
  walk fetch start_time start_ms fuel i all_dfs current_end = Some (dfs, n) ->
  Z.of_nat (length all_dfs) <= max_pages ->
  (Z.of_nat n - Z.of_nat i = Z.of_nat (length dfs) - Z.of_nat (length all_dfs) /\
   Z.of_nat (length dfs) <= max_pages + 1) \/
  (Z.of_nat n - Z.of_nat i = Z.of_nat (length dfs) - Z.of_nat (length all_dfs) + 1 /\
   Z.of_nat (length dfs) <= max_pages).
Proof.
  revert i all_dfs current_end.
  induction fuel as [|fuel IH]; intros i all_dfs ce Hw Hlen; [discriminate|].
  rewrite walk_S in Hw.
  destruct (fetch i ce) as [|c l].
  { inversion Hw. subst. right. lia. }
  destruct (filter (fun r => start_time <=? time r) (c :: l)) as [|first rest].
  { inversion Hw. subst. right. lia. }
  cbv zeta in Hw.
  destruct (timestamp_ms_utc (time first) <=? start_ms).
  { inversion Hw. subst. rewrite length_app. cbn [length]. left. lia. }
  destruct (max_pages <? Z.of_nat (length (all_dfs ++ [first :: rest]))) eqn:E.
  { inversion Hw. subst. rewrite length_app. cbn [length]. left. lia. }
  apply Z.ltb_ge in E. apply IH in Hw; [|exact E].
  rewrite length_app in Hw. cbn [length] in Hw. lia.
Qed.

(** X5: the spot and futures walks issue at most 10,001 requests: as many as
    they retain pages, or one more. *)
Lemma backfill_requests_bounded (server : service) (symbol interval : string)
    (start_time start_ms end_ms : Z) (fuel : nat)
    (dfs : list DataFrame) (n : nat) :
  walk (fetch_page get_spot_prices_bybit server symbol interval start_ms)
       start_time start_ms fuel 0 [] end_ms = Some (dfs, n) \/
  walk (fetch_page get_future_price_bybit server symbol interval start_ms)
       start_time start_ms fuel 0 [] end_ms = Some (dfs, n) ->
  Z.of_nat n <= max_pages + 1 /\
  (n = length dfs \/ n = S (length dfs)).
Proof.
  intros [Hw | Hw]; apply walk_counts in Hw;
    try (cbn [length]; unfold max_pages; lia);
    cbn [length] in Hw; lia.
Qed.

Lemma backfill_requests_witness :
  Z.of_nat 2 <= max_pages + 1 /\
  (2%nat = length [[token_row (sample_kline 200)]] \/
   2%nat = S (length [[token_row (sample_kline 200)]])).
Proof.
  apply (backfill_requests_bounded failing_server "SOLUSDT" "60" 0 0 300 5
           [[token_row (sample_kline 200)]] 2).
  left. reflexivity.
Defined.

(** X6: what the page of a response is: a frame in ascending order of time,
    without rows when the request fails, when the return code is not 0 and
    when a stamp is out of the bounds of [to_datetime]; and the rows of the
    klines when the return code is 0 and every stamp is in bounds. *)
Lemma page_is_the_sorted_klines (http_get : request -> response)
    (symbol interval : string) (limit : Z) (start_time end_time : option Z) :
  StronglySorted time_le
    (get_spot_prices_bybit http_get symbol interval limit start_time end_time) /\
  StronglySorted time_le
    (get_future_price_bybit http_get symbol interval limit start_time end_time) /\
  (forall r, failed r = true -> kline_frame r = []) /\
  (forall retCode retMsg klines,
     forallb (fun k => in_bounds (k_timestamp k)) klines = false ->
     kline_frame (Payload retCode retMsg klines) = []) /\
  (forall retMsg klines,
     forallb (fun k => in_bounds (k_timestamp k)) klines = true ->
     Permutation (kline_frame (Payload 0 retMsg klines)) (map token_row klines)).
Proof.
  assert (Hs : forall r, StronglySorted time_le (kline_frame r)).
  { intros r.
    destruct (kline_frame_cases r) as [-> | [retMsg [klines [_ [_ ->]]]]];
      [constructor | apply sort_index_sorted]. }
  split; [apply Hs|]. split; [apply Hs|]. split; [|split].
  - intros [| | |retCode retMsg klines]; cbn [failed kline_frame]; try reflexivity.
    destruct (retCode =? 0); [discriminate | reflexivity].
  - intros retCode retMsg klines B. unfold kline_frame.
    destruct (retCode =? 0); [|reflexivity].
    destruct klines as [|k ks]; [reflexivity|]. rewrite B. reflexivity.
  - intros retMsg [|k ks] B; [apply perm_nil|].
    unfold kline_frame. cbn [Z.eqb]. rewrite B. apply sort_index_perm.
Qed.

Lemma kline_frame_sent_by (server : service) (i : nat) (q : request) :
  Forall (sent_by server) (kline_frame (server i q)).
Proof.
  destruct (kline_frame_cases (server i q))
    as [-> | [retMsg [klines [E [_ ->]]]]]; [constructor|].
  rewrite Forall_forall. intros x Hx.
  apply (proj1 (sort_index_In _ _)) in Hx.
  apply in_map_iff in Hx. destruct Hx as [k' [<- Hk']].
  exists i, q, retMsg, klines, k'. repeat split; assumption.
Qed.

(** X7: every row of a table a backfill returns is the row of a kline the
    service sent: the backfills invent no candle. *)
Lemma backfill_rows_were_sent
    (fromisoformat : string -> option Z) (timestamp_ms : Z -> Z) (now : Z)
    (server : service) (symbol interval : string)
    (start_time end_time : time_arg) (df : DataFrame) :
  get_spot_data_bybit_full_period fromisoformat timestamp_ms now server
      symbol interval start_time end_time = Some (Returned df) \/
  get_future_data_bybit_full_period fromisoformat timestamp_ms now server
      symbol interval start_time end_time = Some (Returned df) ->
  Forall (sent_by server) df.
Proof.
  intros [H | H]; apply backfill_table in H;
    destruct H as [s [e [all_dfs [n [_ [Hw ->]]]]]];
    apply walk_pages with (P := sent_by server) in Hw;
    try (intros i ce; apply kline_frame_sent_by); try constructor;
    simpl in Hw; rewrite Forall_forall in Hw |- *; intros r Hr;
    apply merge_In in Hr; apply in_concat in Hr;
    destruct Hr as [d [Hd Hr]]; specialize (Hw d Hd);
    rewrite Forall_forall in Hw; apply Hw, Hr.
Qed.

Lemma backfill_rows_witness :
  Forall (sent_by failing_server) [token_row (sample_kline 200)].
Proof.
  apply (backfill_rows_were_sent no_iso utc_timestamp_ms 0 failing_server
           "SOLUSDT" "60" (ArgDatetime 0) (ArgDatetime 300000)).
  left. vm_compute. reflexivity.
Defined.

(** ** Further properties of the funding grid *)

(** X8: the funding loop is left only by an empty answer or by a page that
    reaches the start: when every page holds payments later than the start,
    no number of passes leaves it. *)
Lemma funding_walk_has_no_cap (server : funding_service) (symbol : string)
    (start_time : Z) :
  (forall i q, exists r0 rest,
      server i q = FundingPayload 0 (r0 :: rest) /\
      start_time < oldest r0 rest) ->
  forall (fuel i : nat) (all_rates : list funding_rate) (current_end : Z),
    funding_walk server symbol start_time fuel i all_rates current_end = None.
Proof.
  intros Hlate. induction fuel as [|fuel IH]; intros i all_rates current_end.
  - reflexivity.
  - cbn [funding_walk]. unfold get_funding_rates.
    destruct (Hlate i {| q_symbol := symbol; q_limit := 200;
                         startTime := truthy None;
                         endTime := truthy (Some current_end) |})
      as [r0 [rest [E Hlt]]].
    rewrite E. cbn [Z.eqb].
    destruct (oldest r0 rest <=? start_time) eqn:Ec;
      [apply Z.leb_le in Ec; lia | apply IH].
Qed.

Lemma funding_walk_no_cap_witness :
  funding_walk same_page_server "SOLUSDT" 0 5 0 [] 5400000 = None.
Proof.
  apply (funding_walk_has_no_cap same_page_server "SOLUSDT" 0).
  intros j q. exists (sample_rate 3600000), []. split; reflexivity.
Defined.

(** X9: what the funding loop collects was sent by the service and is not
    earlier than the start. *)
Lemma funding_walk_collects (server : funding_service) (symbol : string)
    (start_time : Z) (fuel i : nat) (current_end : Z)
    (all_rates : list funding_rate) (n : nat) :
  funding_walk server symbol start_time fuel i [] current_end
    = Some (all_rates, n) ->
  Forall (fun r => start_time <= fundingRateTimestamp r /\ rate_sent_by server r)
         all_rates.
Proof.
  assert (Hgen : forall fuel i acc ce res k,
    Forall (fun r => start_time <= fundingRateTimestamp r /\ rate_sent_by server r) acc ->
    funding_walk server symbol start_time fuel i acc ce = Some (res, k) ->
    Forall (fun r => start_time <= fundingRateTimestamp r /\ rate_sent_by server r) res).
  { clear. induction fuel as [|fuel IH]; intros i acc ce res k Hacc Hw;
      [discriminate|].
    cbn [funding_walk] in Hw. unfold get_funding_rates in Hw.
    set (q := {| q_symbol := symbol; q_limit := 200; startTime := truthy None;
                 endTime := truthy (Some ce) |}) in Hw.
    destruct (server i q) as [|retCode rates] eqn:E;
      [inversion Hw; subst; exact Hacc|].
    destruct (retCode =? 0) eqn:Ec; [|inversion Hw; subst; exact Hacc].
    apply Z.eqb_eq in Ec. subst retCode.
    destruct rates as [|r0 rest]; [inversion Hw; subst; exact Hacc|].
    assert (Hacc' : Forall (fun r => start_time <= fundingRateTimestamp r /\
                                     rate_sent_by server r)
                      (acc ++ filter (fun r => start_time <=? fundingRateTimestamp r)
                                     (r0 :: rest))).
    { apply Forall_app. split; [exact Hacc|].
      rewrite Forall_forall. intros r Hr. apply filter_In in Hr.
      destruct Hr as [Hin Hge]. apply Z.leb_le in Hge.
      split; [exact Hge|]. exists i, q, (r0 :: rest). split; assumption. }
    destruct (oldest r0 rest <=? start_time).
    - inversion Hw. subst. exact Hacc'.
    - eapply IH; eassumption. }
  intros Hw. eapply Hgen; [constructor | exact Hw].
Qed.

Lemma funding_walk_collects_witness :
  Forall (fun r => 0 <= fundingRateTimestamp r /\ rate_sent_by one_payment_server r)
         [sample_rate 3600000].
Proof.
  apply (funding_walk_collects one_payment_server "SOLUSDT" 0 2 0 5400000
           [sample_rate 3600000] 2).
  reflexivity.
Defined.

(** X10: when no answer of the service carries a rate, the funding call returns
    the frame without rows, not a grid of zeros. *)
Lemma no_funding_data_returns_empty_frame (server : funding_service)
    (fuel : nat) (symbols : list string) (start_date end_date : Z) :
  (forall i q, no_rates (server i q) = true) ->
  get_funding_bybit server (S fuel) symbols start_date end_date
    = Some (Returned []).
Proof.
  intros Hnone.
  assert (Hwalk : forall symbol st i ce,
    funding_walk server symbol st (S fuel) i [] ce = Some ([], S i)).
  { intros symbol st i ce. cbn [funding_walk]. unfold get_funding_rates.
    specialize (Hnone i {| q_symbol := symbol; q_limit := 200;
                           startTime := truthy None;
                           endTime := truthy (Some ce) |}).
    destruct (server i _) as [|retCode rates]; [reflexivity|].
    simpl in Hnone. destruct (retCode =? 0); [|reflexivity].
    destruct rates; [reflexivity | discriminate]. }
  assert (Hres : forall i,
    funding_results server start_date end_date (S fuel) i symbols [] = Some []).
  { induction symbols as [|symbol rest IH]; intros i; [reflexivity|].
    cbn [funding_results]. rewrite Hwalk. apply IH. }
  unfold get_funding_bybit. rewrite Hres. reflexivity.
Qed.

Lemma no_funding_data_witness :
  get_funding_bybit (fun _ _ => FundingFailed) (S 0) ["SOLUSDT"%string] 0 5400000000
    = Some (Returned []).
Proof.
  apply (no_funding_data_returns_empty_frame (fun _ _ => FundingFailed) 0
           ["SOLUSDT"%string] 0 5400000000).
  intros i q. reflexivity.
Defined.










End BackfillFacts.

(** * Properties of the statistics *)

Module StatisticsFacts.

Import Backtesters.
Local Open Scope R_scope.

(** ** Facts about the floats *)

Lemma fdiv_fin (x d : R) : d <> 0 -> fdiv (Fin x) (Fin d) = Fin (x / d).
Proof.
  intros Hd. unfold fdiv. destruct (Req_dec_T d 0); [contradiction | reflexivity].
Qed.


Lemma inf_times_cases (x : R) :
  (0 < x -> inf_times x = PInf) /\
  (x < 0 -> inf_times x = NInf) /\
  (x = 0 -> inf_times x = NaN).
Proof.
  unfold inf_times. repeat split; intros H;
    destruct (Rlt_dec 0 x); destruct (Rlt_dec x 0); try reflexivity; lra.
Qed.

Lemma inf_times_not_fin (x : R) :
  inf_times x = PInf \/ inf_times x = NInf \/ inf_times x = NaN.
Proof.
  unfold inf_times. destruct (Rlt_dec 0 x); [left; reflexivity|].
  destruct (Rlt_dec x 0); [right; left | right; right]; reflexivity.
Qed.


Lemma np_sqrt_days : np_sqrt (Fin days_in_year) = Fin (sqrt days_in_year).
Proof.
  unfold np_sqrt. destruct (Rle_dec 0 days_in_year) as [_ | H]; [reflexivity|].
  exfalso. apply H. unfold days_in_year. lra.
Qed.

Lemma sqrt_days_pos : 0 < sqrt days_in_year.
Proof. apply sqrt_lt_R0. unfold days_in_year. lra. Qed.

(** ** Facts about the reductions *)

Lemma sum_repeat (c : R) (n : nat) : sum (repeat c n) = INR n * c.
Proof.
  induction n as [|n IH].
  - simpl. lra.
  - change (sum (repeat c (S n))) with (c + sum (repeat c n)).
    rewrite IH, S_INR. lra.
Qed.

Lemma mean_repeat (c : R) (n : nat) : mean (repeat c (S n)) = c.
Proof.
  unfold mean. rewrite sum_repeat, repeat_length.
  pose proof (pos_INR n). rewrite S_INR. field. lra.
Qed.

Lemma map_repeat {A B : Type} (f : A -> B) (c : A) (n : nat) :
  map f (repeat c n) = repeat (f c) n.
Proof. induction n as [|n IH]; simpl; [reflexivity | rewrite IH; reflexivity]. Qed.


Lemma np_mean_fin (x : R) (l : list R) : np_mean (x :: l) = Fin (mean (x :: l)).
Proof. reflexivity. Qed.





Lemma filter_none {A : Type} (f : A -> bool) (l : list A) :
  (forall x, In x l -> f x = false) -> filter f l = [].
Proof.
  induction l as [|x rest IH]; simpl; intros H; [reflexivity|].
  rewrite (H x (or_introl eq_refl)). apply IH.
  intros z Hz. apply H. right. exact Hz.
Qed.

(** ** The claims on the statistics *)



Lemma mean_sample : mean sample_returns = 0.
Proof. unfold mean, sample_returns. simpl. lra. Qed.

Lemma moment2_sample : moment 2 sample_returns = 1 / 2.
Proof.
  unfold moment. rewrite mean_sample. unfold mean, sample_returns. simpl. lra.
Qed.

Lemma moment3_sample : moment 3 sample_returns = 0.
Proof.
  unfold moment. rewrite mean_sample. unfold mean, sample_returns. simpl. lra.
Qed.

Lemma moment4_sample : moment 4 sample_returns = 1 / 2.
Proof.
  unfold moment. rewrite mean_sample. unfold mean, sample_returns. simpl. lra.
Qed.

Lemma skew_sample : skew sample_returns = Fin 0.
Proof.
  unfold skew. change sample_returns with (-1 :: [0; 0; 1]) at 1.
  cbv iota beta. fold sample_returns.
  rewrite moment2_sample, moment3_sample.
  destruct (Req_dec_T (1 / 2) 0); [lra|].
  f_equal. unfold Rdiv. apply Rmult_0_l.
Qed.

Lemma kurtosis_sample : kurtosis sample_returns = Fin (-1).
Proof.
  unfold kurtosis. change sample_returns with (-1 :: [0; 0; 1]) at 1.
  cbv iota beta. fold sample_returns.
  rewrite moment2_sample, moment4_sample.
  destruct (Req_dec_T (1 / 2) 0); [lra|].
  f_equal. lra.
Qed.

Lemma math_sqrt_nonneg (x : R) : 0 <= x -> math_sqrt (Fin x) = Returned (Fin (sqrt x)).
Proof.
  intros H. unfold math_sqrt. destruct (Rle_dec 0 x); [reflexivity | contradiction].
Qed.

Lemma py_div_fin (x d : R) : d <> 0 -> py_div (Fin x) (Fin d) = Returned (Fin (x / d)).
Proof.
  intros H. unfold py_div. destruct (Req_dec_T d 0); [contradiction|].
  rewrite fdiv_fin by exact H. reflexivity.
Qed.

(** C1: on the returns -1, 0, 0, 1 (skewness 0, excess kurtosis -1) with a
    tested ratio of 2 and a benchmark of 0, [prob_sharpe] maps
    2 * sqrt 3 / sqrt (3/2) through the normal law: the kurtosis term of its
    denominator is (y4 - 1) * sr_tested / 4 = 1/2.  The formula of the
    specification, with the term ((y4 - 1) / 4) * sr_tested ^ 2 = 1, gives
    the smaller 2 * sqrt 3 / sqrt 2. *)
Theorem prob_sharpe_kurtosis_term_is_linear (Phi : R -> R) :
  skew sample_returns = Fin 0 /\
  kurtosis sample_returns = Fin (-1) /\
  prob_sharpe_stat sample_returns (PyFloat (Fin 2)) (PyFloat (Fin 0))
    = Returned (Fin (2 * sqrt 3 / sqrt (3 / 2))) /\
  prob_sharpe Phi sample_returns (PyFloat (Fin 2)) (PyFloat (Fin 0))
    = Returned (Fin (Phi (2 * sqrt 3 / sqrt (3 / 2)))) /\
  z_spec 4 0 (-1) 2 0 = 2 * sqrt 3 / sqrt 2 /\
  2 * sqrt 3 / sqrt 2 < 2 * sqrt 3 / sqrt (3 / 2).
Proof.
  assert (Hstat :
    prob_sharpe_stat sample_returns (PyFloat (Fin 2)) (PyFloat (Fin 0))
      = Returned (Fin (2 * sqrt 3 / sqrt (3 / 2)))).
  { unfold prob_sharpe_stat. rewrite skew_sample, kurtosis_sample.
    cbn [value is_np orb fadd fsub fneg fmul length].
    rewrite math_sqrt_nonneg by (simpl; lra). cbn [bind].
    rewrite fdiv_fin by lra. cbn [fadd fmul].
    rewrite math_sqrt_nonneg by lra. cbn [bind fmul].
    assert (Hrad : 1 + - (0 * 2) + (-1 + 3 + - (1)) * 2 / 4 = 3 / 2) by lra.
    rewrite Hrad.
    assert (Hn : INR (length sample_returns) - 1 = 3) by (simpl; lra).
    rewrite Hn.
    assert (Hpos : 0 < sqrt (3 / 2)) by (apply sqrt_lt_R0; lra).
    rewrite py_div_fin by lra.
    do 2 f_equal. lra. }
  split; [exact skew_sample|]. split; [exact kurtosis_sample|].
  split; [exact Hstat|]. split; [|split].
  - unfold prob_sharpe. rewrite Hstat. reflexivity.
  - unfold z_spec.
    replace (INR 4 - 1) with 3 by (simpl; lra).
    replace (1 - 0 * 2 + (-1 + 3 - 1) / 4 * (2 * 2)) with 2 by lra.
    f_equal. lra.
  - assert (H3 : 0 < sqrt 3) by (apply sqrt_lt_R0; lra).
    assert (Ha : 0 < sqrt (3 / 2)) by (apply sqrt_lt_R0; lra).
    assert (Hlt : sqrt (3 / 2) < sqrt 2) by (apply sqrt_lt_1_alt; lra).
    unfold Rdiv. apply Rmult_lt_compat_l; [lra|].
    apply Rinv_lt_contravar; [nra | exact Hlt].
Qed.

Lemma sqrt_days_sq : sqrt days_in_year * sqrt days_in_year = days_in_year.
Proof. apply sqrt_sqrt. unfold days_in_year. lra. Qed.

Lemma SharpeRatio_up : SharpeRatio [0; 2] = Fin (sqrt days_in_year).
Proof.
  unfold SharpeRatio, Volatility, Return. rewrite np_sqrt_days.
  cbn [np_mean np_std fmul].
  assert (Hm : mean [0; 2] = 1) by (unfold mean; simpl; lra).
  rewrite Hm.
  assert (Hv : mean (map (fun x => (x - 1) * (x - 1)) [0; 2]) = 1)
    by (unfold mean; simpl; lra).
  rewrite Hv, sqrt_1.
  pose proof sqrt_days_pos. pose proof sqrt_days_sq.
  rewrite fdiv_fin by lra. f_equal.
  set (s := sqrt days_in_year) in *. rewrite <- H0. field. lra.
Qed.

Lemma SharpeRatio_down : SharpeRatio [0; -2] = Fin (- sqrt days_in_year).
Proof.
  unfold SharpeRatio, Volatility, Return. rewrite np_sqrt_days.
  cbn [np_mean np_std fmul].
  assert (Hm : mean [0; -2] = -1) by (unfold mean; simpl; lra).
  rewrite Hm.
  assert (Hv : mean (map (fun x => (x - -1) * (x - -1)) [0; -2]) = 1)
    by (unfold mean; simpl; lra).
  rewrite Hv, sqrt_1.
  pose proof sqrt_days_pos. pose proof sqrt_days_sq.
  rewrite fdiv_fin by lra. f_equal.
  set (s := sqrt days_in_year) in *. rewrite <- H0. field. lra.
Qed.

Lemma series_std_sample :
  series_std (map SharpeRatio sample_bagging) = Fin (sqrt (2 * days_in_year)).
Proof.
  unfold sample_bagging. cbn [map]. rewrite SharpeRatio_up, SharpeRatio_down.
  unfold series_std. cbn [finite_values option_map].
  f_equal. f_equal.
  assert (Hm : mean [sqrt days_in_year; - sqrt days_in_year] = 0)
    by (unfold mean; simpl; lra).
  rewrite Hm. pose proof sqrt_days_sq. simpl. nra.
Qed.

Lemma y_bounds : 0 < y < 1.
Proof. unfold y. lra. Qed.

(** C2: for two strategies with opposite returns the deviation of their
    Sharpe ratios is sqrt (2 * 365.25), and [deflated_sharpe] takes as its
    benchmark that deviation times (1 - y) / Phi(1 - 1/N) + y / Phi(1 - 1/(N e)),
    dividing by values of the distribution function, which lie below 1: the
    benchmark exceeds the deviation.  The formula of the specification uses
    the inverse function instead, and stays below the deviation. *)
Theorem deflated_sharpe_divides_by_the_cdf (Phi Phi_inv : R -> R) :
  0 < Phi (1 - 1 / INR 2) < 1 ->
  0 < Phi (1 - 1 / (INR 2 * exp 1)) < 1 ->
  Phi_inv (1 - 1 / INR 2) = 0 ->
  Phi_inv (1 - 1 / (INR 2 * exp 1)) < 1 ->
  series_std (map SharpeRatio sample_bagging) = Fin (sqrt (2 * days_in_year)) /\
  deflated_sharpe_etalon Phi sample_bagging
    = Returned (Fin (sqrt (2 * days_in_year) *
                     ((1 - y) / Phi (1 - 1 / INR 2)
                      + y / Phi (1 - 1 / (INR 2 * exp 1))))) /\
  srBenchmark_spec Phi_inv y (sqrt (2 * days_in_year)) 2
    < sqrt (2 * days_in_year) /\
  sqrt (2 * days_in_year)
    < sqrt (2 * days_in_year) *
      ((1 - y) / Phi (1 - 1 / INR 2) + y / Phi (1 - 1 / (INR 2 * exp 1))).
Proof.
  intros [Hp1 Hp1'] [Hp2 Hp2'] Hq1 Hq2.
  pose proof y_bounds as [Hy Hy'].
  assert (Hs : 0 < sqrt (2 * days_in_year))
    by (apply sqrt_lt_R0; unfold days_in_year; lra).
  split; [exact series_std_sample|]. split; [|split].
  - unfold deflated_sharpe_etalon. rewrite series_std_sample.
    change (length sample_bagging) with 2%nat. cbv iota.
    unfold norm_cdf. rewrite !fdiv_fin by lra. reflexivity.
  - unfold srBenchmark_spec. rewrite Hq1.
    set (q := Phi_inv (1 - 1 / (INR 2 * exp 1))) in *.
    assert (Hyq : y * q < 1) by nra.
    nra.
  - set (p1 := Phi (1 - 1 / INR 2)) in *.
    set (p2 := Phi (1 - 1 / (INR 2 * exp 1))) in *.
    assert (H1 : 1 - y < (1 - y) / p1).
    { apply Rmult_lt_reg_r with p1; [exact Hp1|].
      unfold Rdiv. rewrite Rmult_assoc, Rinv_l by lra. nra. }
    assert (H2 : y < y / p2).
    { apply Rmult_lt_reg_r with p2; [exact Hp2|].
      unfold Rdiv. rewrite Rmult_assoc, Rinv_l by lra. nra. }
    nra.
Qed.

(** C2, witness: the hypotheses at a constant function and the zero
    function. *)
Lemma deflated_sharpe_witness :
  series_std (map SharpeRatio sample_bagging) = Fin (sqrt (2 * days_in_year)) /\
  deflated_sharpe_etalon (fun _ => 1 / 2) sample_bagging
    = Returned (Fin (sqrt (2 * days_in_year) *
                     ((1 - y) / (1 / 2) + y / (1 / 2)))) /\
  srBenchmark_spec (fun _ => 0) y (sqrt (2 * days_in_year)) 2
    < sqrt (2 * days_in_year) /\
  sqrt (2 * days_in_year)
    < sqrt (2 * days_in_year) * ((1 - y) / (1 / 2) + y / (1 / 2)).
Proof.
  apply (deflated_sharpe_divides_by_the_cdf (fun _ => 1 / 2) (fun _ => 0)).
  - lra.
  - lra.
  - reflexivity.
  - lra.
Defined.

(** ** Further properties of the statistics *)

Lemma min_skipna_fin (a b : R) : min_skipna (Fin a) (Fin b) = Fin (Rmin a b).
Proof.
  unfold min_skipna, fgt, Rmin.
  destruct (Rlt_dec b a); destruct (Rle_dec a b); try reflexivity; f_equal; lra.
Qed.

(** On the returns 0.1, -0.5, 0.1 the wealth index is 1.1, 0.55, 0.605
    under a running maximum of 1.1, and the maximum drawdown is the
    drawdown of the second period, (0.55 - 1.1) / 1.1 = -0.5. *)
Lemma max_drawdown_example :
  drawdowns [0.1; -0.5; 0.1]
    = [Fin ((1 + 0.1 - (1 + 0.1)) / (1 + 0.1));
       Fin (((1 + 0.1) * (1 + -0.5) - (1 + 0.1)) / (1 + 0.1));
       Fin (((1 + 0.1) * (1 + -0.5) * (1 + 0.1) - (1 + 0.1)) / (1 + 0.1))] /\
  MaxDrawdown [0.1; -0.5; 0.1] = Fin (-0.5).
Proof.
  assert (Hd : drawdowns [0.1; -0.5; 0.1]
    = [Fin ((1 + 0.1 - (1 + 0.1)) / (1 + 0.1));
       Fin (((1 + 0.1) * (1 + -0.5) - (1 + 0.1)) / (1 + 0.1));
       Fin (((1 + 0.1) * (1 + -0.5) * (1 + 0.1) - (1 + 0.1)) / (1 + 0.1))]).
  { unfold drawdowns.
    cbn [map cumprod cumprod_from cummax cummax_from combine fst snd].
    rewrite (Rmax_left (1 + 0.1) ((1 + 0.1) * (1 + -0.5))) by lra.
    rewrite (Rmax_left (1 + 0.1) ((1 + 0.1) * (1 + -0.5) * (1 + 0.1))) by lra.
    rewrite !fdiv_fin by lra. reflexivity. }
  split; [exact Hd|].
  unfold MaxDrawdown. rewrite Hd. cbn [series_min fold_right].
  change (min_skipna (Fin (((1 + 0.1) * (1 + -0.5) * (1 + 0.1) - (1 + 0.1)) / (1 + 0.1))) NaN)
    with (Fin (((1 + 0.1) * (1 + -0.5) * (1 + 0.1) - (1 + 0.1)) / (1 + 0.1))).
  rewrite !min_skipna_fin. f_equal.
  rewrite (Rmin_left (((1 + 0.1) * (1 + -0.5) - (1 + 0.1)) / (1 + 0.1))) by lra.
  rewrite Rmin_right by lra. lra.
Qed.



(** ** Drawdowns *)

Lemma cumprod_from_pos (l : list R) (acc : R) :
  0 < acc -> Forall (fun x => 0 < x) l ->
  Forall (fun x => 0 < x) (cumprod_from acc l).
Proof.
  revert acc. induction l as [|x rest IH]; intros acc Hacc Hl; simpl.
  - constructor.
  - inversion Hl as [|y l' Hx Hrest]. subst.
    assert (0 < acc * x) by (apply Rmult_lt_0_compat; assumption).
    constructor; [assumption | apply IH; assumption].
Qed.

(** Under its running maximum a positive wealth is positive and not above
    the maximum. *)
Lemma wealth_under_maximum (l : list R) (m : R) :
  0 < m -> Forall (fun x => 0 < x) l ->
  Forall (fun wm => 0 < fst wm <= snd wm) (combine l (cummax_from m l)).
Proof.
  revert m. induction l as [|x rest IH]; intros m Hm Hl; simpl.
  - constructor.
  - inversion Hl as [|y l' Hx Hrest]. subst.
    pose proof (Rmax_r m x). pose proof (Rmax_l m x).
    constructor; [simpl; lra | apply IH; [lra | exact Hrest]].
Qed.

(** A wealth that never falls equals its running maximum. *)
Lemma rising_wealth_is_maximum (l : list R) (acc : R) :
  0 < acc -> Forall (fun x => 1 <= x) l ->
  Forall (fun wm => 0 < fst wm /\ fst wm = snd wm)
         (combine (cumprod_from acc l) (cummax_from acc (cumprod_from acc l))).
Proof.
  revert acc. induction l as [|x rest IH]; intros acc Hacc Hl; simpl.
  - constructor.
  - inversion Hl as [|y l' Hx Hrest]. subst.
    assert (Hle : acc <= acc * x) by nra.
    rewrite (Rmax_right acc (acc * x) Hle).
    constructor; [simpl; split; [lra | reflexivity]|].
    apply IH; [lra | exact Hrest].
Qed.

(** The minimum of a non-empty series of numbers that satisfy [P] is a
    number that satisfies [P]. *)
Lemma series_min_of_numbers (P : R -> Prop) (d : float64) (l : list float64) :
  Forall (fun a => exists m, a = Fin m /\ P m) (d :: l) ->
  exists m, series_min (d :: l) = Fin m /\ P m.
Proof.
  revert d. induction l as [|e rest IH]; intros d Hall.
  - inversion Hall as [|a l' [m [-> Hm]] _]. subst.
    exists m. split; [reflexivity | exact Hm].
  - inversion Hall as [|a l' [m [-> Hm]] Hrest]. subst.
    destruct (IH e Hrest) as [m' [Hmin Hm']].
    change (series_min (Fin m :: e :: rest))
      with (min_skipna (Fin m) (series_min (e :: rest))).
    rewrite Hmin, min_skipna_fin.
    exists (Rmin m m'). split; [reflexivity|].
    apply Rmin_case; assumption.
Qed.

Lemma drawdowns_of_pairs (P : R -> Prop) (pairs : list (R * R)) :
  Forall (fun wm => snd wm <> 0 /\ P ((fst wm - snd wm) / snd wm)) pairs ->
  Forall (fun a => exists m, a = Fin m /\ P m)
         (map (fun wm => fdiv (Fin (fst wm - snd wm)) (Fin (snd wm))) pairs).
Proof.
  induction pairs as [|wm rest IH]; intros H; cbn [map].
  - constructor.
  - inversion H as [|y l' [Hnz Hp] Hrest]. subst.
    constructor; [|apply IH, Hrest].
    rewrite fdiv_fin by exact Hnz. eexists. split; [reflexivity | exact Hp].
Qed.

(** X15: while no return is -100% or worse, the maximum drawdown is a number
    above -1 and at most 0. *)
Lemma max_drawdown_bounds (rets : list R) :
  rets <> [] -> (forall r, In r rets -> -1 < r) ->
  exists m, MaxDrawdown rets = Fin m /\ -1 < m <= 0.
Proof.
  intros Hne Hr. destruct rets as [|r rest]; [contradiction|].
  assert (Hpos : Forall (fun x => 0 < x) (map (fun r => 1 + r) (r :: rest))).
  { rewrite Forall_forall. intros x Hx. apply in_map_iff in Hx.
    destruct Hx as [y [<- Hy]]. specialize (Hr y Hy). lra. }
  unfold MaxDrawdown, drawdowns.
  cbn [map cumprod cummax combine] in *.
  inversion Hpos as [|y l' H1 Hrest]. subst.
  apply series_min_of_numbers with (P := fun m => -1 < m <= 0).
  change (fdiv (Fin (fst (1 + r, 1 + r) - snd (1 + r, 1 + r)))
               (Fin (snd (1 + r, 1 + r)))
          :: map (fun wm => fdiv (Fin (fst wm - snd wm)) (Fin (snd wm)))
                 (combine (cumprod_from (1 + r) (map (fun r => 1 + r) rest))
                          (cummax_from (1 + r)
                             (cumprod_from (1 + r) (map (fun r => 1 + r) rest)))))
    with (map (fun wm => fdiv (Fin (fst wm - snd wm)) (Fin (snd wm)))
              ((1 + r, 1 + r)
               :: combine (cumprod_from (1 + r) (map (fun r => 1 + r) rest))
                          (cummax_from (1 + r)
                             (cumprod_from (1 + r) (map (fun r => 1 + r) rest))))).
  apply drawdowns_of_pairs.
  assert (Hrange : forall w M, 0 < w <= M -> M <> 0 /\ -1 < (w - M) / M <= 0).
  { intros w M [Hw HM]. split; [lra|].
    assert (HMpos : 0 < M) by lra.
    split.
    - apply Rmult_lt_reg_r with M; [exact HMpos|].
      unfold Rdiv. rewrite Rmult_assoc, Rinv_l by lra. lra.
    - apply Rmult_le_reg_r with M; [exact HMpos|].
      unfold Rdiv. rewrite Rmult_assoc, Rinv_l by lra. lra. }
  constructor.
  - apply Hrange. simpl. lra.
  - pose proof (wealth_under_maximum
                  (cumprod_from (1 + r) (map (fun r => 1 + r) rest)) (1 + r) H1
                  (cumprod_from_pos _ _ H1 Hrest)) as Hu.
    rewrite Forall_forall in Hu |- *. intros wm Hwm.
    apply Hrange, Hu, Hwm.
Qed.

Lemma max_drawdown_bounds_witness :
  exists m, MaxDrawdown [0.1; -0.5; 0.1] = Fin m /\ -1 < m <= 0.
Proof.
  apply (max_drawdown_bounds [0.1; -0.5; 0.1]).
  - discriminate.
  - intros r [<- | [<- | [<- | []]]]; lra.
Defined.

(** X16: a series without a loss has no drawdown, so its Calmar ratio is NaN;
    it has no downside either, so its Sortino ratio is NaN. *)
Lemma no_loss_series_has_no_ratio (rets : list R) :
  rets <> [] -> (forall r, In r rets -> 0 <= r) ->
  MaxDrawdown rets = Fin 0 /\ CalmarRatio rets = NaN /\ SortinoRatio rets = NaN.
Proof.
  intros Hne Hr. destruct rets as [|r rest]; [contradiction|].
  assert (Hm : MaxDrawdown (r :: rest) = Fin 0).
  { assert (Hone : Forall (fun x => 1 <= x) (map (fun r => 1 + r) rest)).
    { rewrite Forall_forall. intros x Hx. apply in_map_iff in Hx.
      destruct Hx as [y [<- Hy]]. specialize (Hr y (or_intror Hy)). lra. }
    assert (H1 : 0 < 1 + r) by (specialize (Hr r (or_introl eq_refl)); lra).
    destruct (series_min_of_numbers (fun m => m = 0)
                (fdiv (Fin (1 + r - (1 + r))) (Fin (1 + r)))
                (map (fun wm => fdiv (Fin (fst wm - snd wm)) (Fin (snd wm)))
                   (combine (cumprod_from (1 + r) (map (fun r => 1 + r) rest))
                      (cummax_from (1 + r)
                         (cumprod_from (1 + r) (map (fun r => 1 + r) rest))))))
      as [m [Hmin ->]].
    - constructor.
      + rewrite fdiv_fin by lra. eexists. split; [reflexivity|]. field. lra.
      + apply drawdowns_of_pairs.
        pose proof (rising_wealth_is_maximum _ _ H1 Hone) as Hu.
        rewrite Forall_forall in Hu |- *. intros wm Hwm.
        destruct (Hu wm Hwm) as [Hp He]. rewrite <- He.
        split; [lra | field; lra].
    - exact Hmin. }
  split; [exact Hm|]. split.
  - unfold CalmarRatio. rewrite Hm. simpl. rewrite Rabs_R0.
    destruct (Rlt_dec 1e-8 0); [lra | reflexivity].
  - unfold SortinoRatio, downside_vol. cbv zeta. rewrite filter_none.
    + unfold fgt. destruct (Rlt_dec 1e-8 0); [lra | reflexivity].
    + intros x Hx. specialize (Hr x Hx). destruct (Rlt_dec x 0); [lra | reflexivity].
Qed.

Lemma no_loss_series_witness :
  MaxDrawdown [0.1; 0; 0.2] = Fin 0 /\ CalmarRatio [0.1; 0; 0.2] = NaN /\
  SortinoRatio [0.1; 0; 0.2] = NaN.
Proof.
  apply (no_loss_series_has_no_ratio [0.1; 0; 0.2]).
  - discriminate.
  - intros r [<- | [<- | [<- | []]]]; lra.
Defined.

(** ** Compounding and scaling *)

Lemma prod_app (a b : list R) : prod (a ++ b) = prod a * prod b.
Proof.
  induction a as [|x rest IH]; simpl.
  - lra.
  - change (fold_right Rmult 1 (rest ++ b)) with (prod (rest ++ b)).
    change (fold_right Rmult 1 rest) with (prod rest).
    rewrite IH. ring.
Qed.

(** X17: returns compound: the total return of two periods in a row is the
    compound of their total returns. *)
Lemma roi_compounds (a b : list R) :
  exists x y, ROI a = Fin x /\ ROI b = Fin y /\
              ROI (a ++ b) = Fin ((1 + x) * (1 + y) - 1).
Proof.
  exists (prod (map (fun r => 1 + r) a) - 1), (prod (map (fun r => 1 + r) b) - 1).
  split; [reflexivity|]. split; [reflexivity|].
  unfold ROI. rewrite map_app, prod_app. f_equal. ring.
Qed.

Lemma sum_scaled (k : R) (l : list R) : sum (map (Rmult k) l) = k * sum l.
Proof.
  induction l as [|x rest IH]; simpl.
  - ring.
  - change (fold_right Rplus 0 (map (Rmult k) rest)) with (sum (map (Rmult k) rest)).
    change (fold_right Rplus 0 rest) with (sum rest).
    rewrite IH. ring.
Qed.

Lemma mean_scaled (k : R) (l : list R) : mean (map (Rmult k) l) = k * mean l.
Proof. unfold mean. rewrite sum_scaled, length_map. unfold Rdiv. ring. Qed.

Lemma squares_scaled (k m : R) (l : list R) :
  sum (map (fun x => (x - k * m) * (x - k * m)) (map (Rmult k) l))
  = k * k * sum (map (fun x => (x - m) * (x - m)) l).
Proof.
  induction l as [|x rest IH]; simpl.
  - ring.
  - change (fold_right Rplus 0
              (map (fun x => (x - k * m) * (x - k * m)) (map (Rmult k) rest)))
      with (sum (map (fun x => (x - k * m) * (x - k * m)) (map (Rmult k) rest))).
    change (fold_right Rplus 0 (map (fun x => (x - m) * (x - m)) rest))
      with (sum (map (fun x => (x - m) * (x - m)) rest)).
    rewrite IH. ring.
Qed.

Lemma np_std_scaled (k : R) (x : R) (l : list R) :
  0 <= k ->
  np_std (map (Rmult k) (x :: l))
  = Fin (k * sqrt (mean (map (fun y => (y - mean (x :: l)) * (y - mean (x :: l)))
                             (x :: l)))).
Proof.
  intros Hk.
  change (np_std (map (Rmult k) (x :: l)))
    with (Fin (sqrt (mean (map (fun y => (y - mean (map (Rmult k) (x :: l))) *
                                         (y - mean (map (Rmult k) (x :: l))))
                               (map (Rmult k) (x :: l)))))).
  f_equal. rewrite mean_scaled.
  unfold mean at 1. rewrite squares_scaled, !length_map.
  replace (k * k * sum (map (fun y => (y - mean (x :: l)) * (y - mean (x :: l)))
                            (x :: l)) / INR (length (x :: l)))
    with (k * k * mean (map (fun y => (y - mean (x :: l)) * (y - mean (x :: l)))
                            (x :: l)))
    by (unfold mean; rewrite length_map; unfold Rdiv; ring).
  rewrite sqrt_mult_alt by (apply Rmult_le_pos; exact Hk).
  rewrite sqrt_square by exact Hk. reflexivity.
Qed.

Lemma inf_times_scaled (k x : R) : 0 < k -> inf_times (k * x) = inf_times x.
Proof.
  intros Hk. unfold inf_times.
  destruct (Rlt_dec 0 (k * x)); destruct (Rlt_dec 0 x);
    destruct (Rlt_dec (k * x) 0); destruct (Rlt_dec x 0);
    try reflexivity; exfalso; nra.
Qed.

Lemma fdiv_scaled (k a b : R) :
  0 < k -> fdiv (Fin (k * a)) (Fin (k * b)) = fdiv (Fin a) (Fin b).
Proof.
  intros Hk. unfold fdiv.
  destruct (Req_dec_T (k * b) 0) as [E | E]; destruct (Req_dec_T b 0) as [E' | E'].
  - apply inf_times_scaled, Hk.
  - exfalso. apply E'. nra.
  - exfalso. apply E. rewrite E'. ring.
  - f_equal. field. split; lra.
Qed.

(** X18: leverage changes the return and the volatility in proportion and leaves
    the Sharpe ratio as it is. *)
Lemma sharpe_ignores_leverage (k : R) (rets : list R) :
  0 < k ->
  Return (map (Rmult k) rets) = fmul (Fin k) (Return rets) /\
  Volatility (map (Rmult k) rets) = fmul (Fin k) (Volatility rets) /\
  SharpeRatio (map (Rmult k) rets) = SharpeRatio rets.
Proof.
  intros Hk. destruct rets as [|x l]; [repeat split; reflexivity|].
  assert (Hr : Return (map (Rmult k) (x :: l))
               = Fin (k * (mean (x :: l) * days_in_year))).
  { change (Return (map (Rmult k) (x :: l)))
      with (Fin (mean (map (Rmult k) (x :: l)) * days_in_year)).
    rewrite mean_scaled. f_equal. ring. }
  assert (Hv : Volatility (map (Rmult k) (x :: l))
               = Fin (k * (sqrt (mean (map (fun y => (y - mean (x :: l)) *
                                                     (y - mean (x :: l)))
                                           (x :: l)))
                           * sqrt days_in_year))).
  { unfold Volatility. rewrite np_std_scaled by lra. rewrite np_sqrt_days.
    cbn [fmul]. f_equal. ring. }
  split; [rewrite Hr; reflexivity|]. split.
  - rewrite Hv. unfold Volatility. rewrite np_sqrt_days. reflexivity.
  - unfold SharpeRatio at 1. rewrite Hr, Hv, fdiv_scaled by exact Hk.
    unfold SharpeRatio, Volatility. rewrite np_sqrt_days. reflexivity.
Qed.

Lemma sharpe_ignores_leverage_witness :
  Return (map (Rmult 2) [0; 2]) = fmul (Fin 2) (Return [0; 2]) /\
  Volatility (map (Rmult 2) [0; 2]) = fmul (Fin 2) (Volatility [0; 2]) /\
  SharpeRatio (map (Rmult 2) [0; 2]) = SharpeRatio [0; 2].
Proof.
  apply (sharpe_ignores_leverage 2 [0; 2]). lra.
Defined.

(** ** Outcomes of the probabilistic and the deflated ratio *)

Lemma moment2_repeat (c : R) (n : nat) : moment 2 (repeat c (S n)) = 0.
Proof.
  unfold moment. rewrite mean_repeat, map_repeat, mean_repeat. simpl. ring.
Qed.

Lemma fsub_nan_r (a : float64) : fsub a NaN = NaN.
Proof. destruct a; reflexivity. Qed.

Lemma fdiv_nan_r (a : float64) : fdiv a NaN = NaN.
Proof. destruct a; reflexivity. Qed.

Lemma math_sqrt_raises (a : float64) (e : exn) :
  math_sqrt a = Raised e -> e = ValueError.
Proof.
  destruct a as [x| | |]; simpl; try discriminate.
  - destruct (Rle_dec 0 x); [discriminate | intros H; inversion H; reflexivity].
  - intros H; inversion H; reflexivity.
Qed.

(** X19: with Python floats for the two ratios and a series that has a skewness
    and a kurtosis, [prob_sharpe] raises [ValueError] when the argument of
    its second square root is negative, [ZeroDivisionError] when it is zero,
    and otherwise returns the normal law at the statistic. *)
Lemma prob_sharpe_outcomes (Phi : R -> R) (returns : list R)
    (y3 k4 sr_tested sr_etalon : R) :
  skew returns = Fin y3 -> kurtosis returns = Fin k4 ->
  (radicand y3 k4 sr_tested < 0 ->
     prob_sharpe Phi returns (PyFloat (Fin sr_tested)) (PyFloat (Fin sr_etalon))
     = Raised ValueError) /\
  (radicand y3 k4 sr_tested = 0 ->
     prob_sharpe Phi returns (PyFloat (Fin sr_tested)) (PyFloat (Fin sr_etalon))
     = Raised ZeroDivisionError) /\
  (0 < radicand y3 k4 sr_tested ->
     prob_sharpe Phi returns (PyFloat (Fin sr_tested)) (PyFloat (Fin sr_etalon))
     = Returned (Fin (Phi ((sr_tested - sr_etalon)
                           * sqrt (INR (length returns) - 1)
                           / sqrt (radicand y3 k4 sr_tested))))).
Proof.
  intros Hs Hk.
  assert (Hlen : 0 <= INR (length returns) - 1).
  { destruct returns as [|x l]; [discriminate Hs|].
    change (length (x :: l)) with (S (length l)). rewrite S_INR.
    pose proof (pos_INR (length l)). lra. }
  assert (Hshape :
    prob_sharpe Phi returns (PyFloat (Fin sr_tested)) (PyFloat (Fin sr_etalon))
    = (denominator <- math_sqrt (Fin (radicand y3 k4 sr_tested)) ;;
       stat <- py_div (Fin ((sr_tested - sr_etalon)
                            * sqrt (INR (length returns) - 1))) denominator ;;
       Returned (norm_cdf Phi stat))).
  { unfold prob_sharpe, prob_sharpe_stat. rewrite Hs, Hk.
    cbn [value is_np orb fadd fsub fneg fmul].
    rewrite math_sqrt_nonneg by exact Hlen. cbn [bind].
    rewrite fdiv_fin by lra. cbn [fadd fmul].
    replace (1 + - (y3 * sr_tested) + (k4 + 3 + - (1)) * sr_tested / 4)
      with (radicand y3 k4 sr_tested) by (unfold radicand; field).
    replace ((sr_tested + - sr_etalon) * sqrt (INR (length returns) - 1))
      with ((sr_tested - sr_etalon) * sqrt (INR (length returns) - 1)) by ring.
    destruct (math_sqrt (Fin (radicand y3 k4 sr_tested))); reflexivity. }
  rewrite Hshape. split; [|split]; intros Hrad.
  - unfold math_sqrt.
    destruct (Rle_dec 0 (radicand y3 k4 sr_tested)); [lra | reflexivity].
  - rewrite Hrad, math_sqrt_nonneg by lra. cbn [bind]. rewrite sqrt_0.
    unfold py_div. destruct (Req_dec_T 0 0) as [_ | H]; [reflexivity|].
    exfalso. apply H. reflexivity.
  - rewrite math_sqrt_nonneg by lra. cbn [bind].
    pose proof (sqrt_lt_R0 _ Hrad).
    rewrite py_div_fin by lra. reflexivity.
Qed.

Lemma prob_sharpe_outcomes_witness :
  (radicand 0 (-1) 2 < 0 ->
     prob_sharpe (fun _ => 1 / 2) sample_returns (PyFloat (Fin 2)) (PyFloat (Fin 0))
     = Raised ValueError) /\
  (radicand 0 (-1) 2 = 0 ->
     prob_sharpe (fun _ => 1 / 2) sample_returns (PyFloat (Fin 2)) (PyFloat (Fin 0))
     = Raised ZeroDivisionError) /\
  (0 < radicand 0 (-1) 2 ->
     prob_sharpe (fun _ => 1 / 2) sample_returns (PyFloat (Fin 2)) (PyFloat (Fin 0))
     = Returned (Fin (1 / 2))).
Proof.
  apply (prob_sharpe_outcomes (fun _ => 1 / 2) sample_returns 0 (-1) 2 0).
  - exact skew_sample.
  - exact kurtosis_sample.
Defined.

(** X20: [prob_sharpe] raises [ValueError] on an empty series, and returns NaN on
    a series whose returns are all equal, whatever the two ratios. *)
Lemma prob_sharpe_degenerate_series (Phi : R -> R) (sr_tested sr_etalon : scalar) :
  prob_sharpe Phi [] sr_tested sr_etalon = Raised ValueError /\
  (forall c n,
     prob_sharpe Phi (repeat c (S n)) sr_tested sr_etalon = Returned NaN).
Proof.
  split.
  - unfold prob_sharpe, prob_sharpe_stat. cbn [length INR math_sqrt].
    destruct (Rle_dec 0 (0 - 1)); [lra | reflexivity].
  - intros c n. unfold prob_sharpe, prob_sharpe_stat.
    assert (Hskew : skew (repeat c (S n)) = NaN).
    { unfold skew. change (repeat c (S n)) with (c :: repeat c n) at 1.
      cbv iota beta. rewrite moment2_repeat.
      destruct (Req_dec_T 0 0) as [_ | H]; [reflexivity | exfalso; apply H; reflexivity]. }
    rewrite Hskew.
    assert (Hlen : 0 <= INR (length (repeat c (S n))) - 1).
    { rewrite repeat_length, S_INR. pose proof (pos_INR n). lra. }
    rewrite math_sqrt_nonneg by exact Hlen. cbn [bind fmul].
    change (fsub (Fin 1) NaN) with NaN. cbn [fadd math_sqrt bind].
    destruct (is_np sr_tested || is_np sr_etalon).
    + cbn [bind]. rewrite fdiv_nan_r. reflexivity.
    + unfold py_div. cbn [bind]. rewrite fdiv_nan_r. reflexivity.
Qed.

Lemma series_std_single (a : float64) : series_std [a] = NaN.
Proof. destruct a; reflexivity. Qed.

(** X21: [deflated_sharpe] needs two strategies at least: without a strategy it
    raises [ZeroDivisionError], and with one strategy the deviation of the
    Sharpe ratios is NaN, so that it returns NaN unless a square root
    raises. *)
Lemma deflated_sharpe_needs_two_strategies (Phi : R -> R) (returns : list R)
    (sr_tested : scalar) :
  deflated_sharpe Phi returns [] sr_tested = Raised ZeroDivisionError /\
  (forall strategy,
     deflated_sharpe Phi returns [strategy] sr_tested = Returned NaN \/
     deflated_sharpe Phi returns [strategy] sr_tested = Raised ValueError).
Proof.
  split; [reflexivity|].
  intros strategy. unfold deflated_sharpe, deflated_sharpe_etalon.
  cbn [map length]. rewrite series_std_single. cbn [fmul bind].
  unfold prob_sharpe, prob_sharpe_stat. cbn [value is_np].
  rewrite orb_true_r.
  destruct (math_sqrt (Fin (INR (length returns) - 1))) as [root|e] eqn:Er.
  - cbn [bind]. rewrite fsub_nan_r. cbn [fmul].
    match goal with
    | |- context [math_sqrt ?a] => destruct (math_sqrt a) as [d|e] eqn:Ed
    end.
    + left. reflexivity.
    + right. cbn [bind]. apply math_sqrt_raises in Ed. subst e. reflexivity.
  - right. cbn [bind]. apply math_sqrt_raises in Er. subst e. reflexivity.
Qed.

(** ** Sortino with equal losses *)




End StatisticsFacts.

(** * Properties that rounding decides *)

Module RoundingFacts.

Import Binary64 Backtesters64.

Lemma div_by_zero (x v : binary64) :
  is_zero v = true ->
  match x with
  | S754_nan | S754_zero _ => div x v = nan
  | S754_infinity s | S754_finite s _ _ => exists s', div x v = S754_infinity s'
  end.
Proof.
  destruct v as [sv| | |]; try discriminate. intros _.
  destruct x as [sx|sx| |sx mx ex]; try reflexivity; eexists; reflexivity.
Qed.

(** C10 (as amended): [SharpeRatio] divides by [Volatility] without a guard.
    Whenever the volatility comes out as zero the ratio is no finite number:
    it is NaN when the return is zero or NaN, and an infinity otherwise. *)
Theorem sharpe_divides_by_zero_volatility
    (add_reduce : list binary64 -> binary64) (rets : list binary64) :
  is_zero (Volatility add_reduce rets) = true ->
  is_finite (SharpeRatio add_reduce rets) = false /\
  (is_nan (Return add_reduce rets) || is_zero (Return add_reduce rets) = true ->
     SharpeRatio add_reduce rets = nan) /\
  (is_nan (Return add_reduce rets) || is_zero (Return add_reduce rets) = false ->
     exists s, SharpeRatio add_reduce rets = S754_infinity s).
Proof.
  intros Hv. unfold SharpeRatio.
  pose proof (div_by_zero (Return add_reduce rets) _ Hv) as H.
  destruct (Return add_reduce rets) as [sx|sx| |sx mx ex].
  - rewrite H. repeat split; try reflexivity. discriminate.
  - destruct H as [s' ->]. repeat split; try discriminate.
    intros _. exists s'. reflexivity.
  - rewrite H. repeat split; try reflexivity. discriminate.
  - destruct H as [s' ->]. repeat split; try discriminate.
    intros _. exists s'. reflexivity.
Qed.

(** C10, witness: the volatility of 0.5, 0.5 is zero, and the ratio is plus
    infinity. *)
Lemma sharpe_zero_volatility_witness :
  is_finite (SharpeRatio sum_in_order halves) = false /\
  (is_nan (Return sum_in_order halves) || is_zero (Return sum_in_order halves)
     = true ->
     SharpeRatio sum_in_order halves = nan) /\
  (is_nan (Return sum_in_order halves) || is_zero (Return sum_in_order halves)
     = false ->
     exists s, SharpeRatio sum_in_order halves = S754_infinity s).
Proof.
  apply (sharpe_divides_by_zero_volatility sum_in_order halves).
  vm_compute. reflexivity.
Defined.

(** C10, counterexample: the constant series 0.1, 0.1, 0.1 has the mean
    0.10000000000000002, so that its deviation is not zero: the volatility
    is 5379413198327030 * 2^-104, about 2.65e-16, and the ratio the finite
    number 8607061117323250 * 2^4, about 1.377e17. *)
Lemma constant_series_with_finite_ratio :
  np_mean sum_in_order tenths = S754_finite false 7205759403792795 (-56) /\
  Volatility sum_in_order tenths = S754_finite false 5379413198327030 (-104) /\
  SharpeRatio sum_in_order tenths = S754_finite false 8607061117323250 4 /\
  is_finite (SharpeRatio sum_in_order tenths) = true.
Proof. repeat split; vm_compute; reflexivity. Qed.

(** The series at the threshold of [CalmarRatio] in binary64 arithmetic: the
    maximum drawdown is the float -1e-8, the guard [abs(mdd) > 1e-8] fails
    and the ratio is NaN. *)
Lemma calmar_threshold_in_binary64 :
  MaxDrawdown threshold_series = opp (literal 1 100000000) /\
  ltb (literal 1 100000000) (abs (MaxDrawdown threshold_series)) = false /\
  CalmarRatio sum_in_order threshold_series = nan.
Proof. repeat split; vm_compute; reflexivity. Qed.

End RoundingFacts.
